(** * Read the Docs: proxito request resolution, 404 handling and
      subscription reconciliation

    A shallow embedding of

    - [readthedocs/proxito/views/utils.py]
      ([fast_404], [proxito_404_page_handler],
      [_get_project_data_from_request]), and
    - [readthedocs/subscriptions/managers.py]
      ([SubscriptionManager.update_from_stripe], [_get_plan]),

    together with the properties the design document states about them.

    Python values are modelled as the code uses them: a slug is a [str] or
    [None] ([option string]), dictionaries are finite maps, model instances
    live in an object store and are passed by reference, exceptions are an
    explicit outcome. *)

From Stdlib Require Import ZArith Ascii.
From stdpp Require Import base option list strings gmap fin_maps.

Local Open Scope string_scope.

(** ** Python primitives used by the views *)

Module Py.

(** Values that may be stored in a template context. *)
#[local] Unset Elimination Schemes.
Inductive PyVal :=
| PyNone
| PyBool (b : bool)
| PyInt (n : Z)
| PyStr (s : string)
| PyList (items : list PyVal)
| PyObj (oid : nat).
#[local] Set Elimination Schemes.

(** Truth value testing, as [bool(v)] does. Model instances define neither
    [__bool__] nor [__len__], so they are always true. *)
Definition truthy (v : PyVal) : bool :=
  match v with
  | PyNone => false
  | PyBool b => b
  | PyInt n => negb (n =? 0)%Z
  | PyStr s => negb (String.eqb s "")
  | PyList items => match items with [] => false | _ :: _ => true end
  | PyObj _ => true
  end.

(** [a or b]. *)
Definition py_or (a b : PyVal) : PyVal := if truthy a then a else b.

(** [d.get(k)]: the value, or [None] when the key is absent. *)
Definition dict_get (d : gmap string PyVal) (k : string) : PyVal :=
  default PyNone (d !! k).

(** [d.update(other)]: the entries of [other] win. *)
Definition dict_update (d other : gmap string PyVal) : gmap string PyVal :=
  other ∪ d.

(** Truth value of a variable that holds a [str] or [None]. *)
Definition truthy_str (o : option string) : bool :=
  match o with
  | None => false
  | Some s => negb (String.eqb s "")
  end.

(** [s.startswith(prefix)]. *)
Definition startswith (prefix s : string) : bool := String.prefix prefix s.

(** [s.endswith(suffix)]. *)
Fixpoint endswith (suffix s : string) : bool :=
  String.eqb s suffix
  || match s with
     | EmptyString => false
     | String _ s' => endswith suffix s'
     end.

(** [sub in s] on strings. *)
Fixpoint contains (sub s : string) : bool :=
  String.prefix sub s
  || match s with
     | EmptyString => false
     | String _ s' => contains sub s'
     end.

(** [posixpath.join]: one step of its loop over the later components. *)
Definition sep : string := "/".

Definition join_step (path b : string) : string :=
  if startswith sep b then b
  else if String.eqb path "" || endswith sep path then path ++ b
  else path ++ sep ++ b.

(** [os.path.join(a, *p)]. *)
Definition os_path_join (a : string) (p : list string) : string :=
  fold_left join_step p a.

End Py.

Import Py.

(** ** Logging

    [structlog] calls are kept as records appended to a log. *)

Record LogRecord := mkLog {
  log_level : string;
  log_event : string;
  log_fields : list (string * PyVal);
}.

(** ** The request object *)

Record ResolverMatch := mkResolverMatch {
  url_name : option string;
}.

(** [path_project_slug] and [path_version_slug] are attributes the resolution
    code sets on the request; [None] here means the attribute is not set.
    [path_version_slug] may be set to Python's [None]. *)
Record Request := mkRequest {
  path : string;
  resolver_match : option ResolverMatch;
  path_project_slug : option string;
  path_version_slug : option (option string);
}.

(** ** 404 handling *)

Module Proxito404.

(** Modelled from the spec: the class [ContextualizedHttp404] is not part of
    the sources at hand; as the spec has it, such an exception carries a
    [template_name], an [http_status] and the context mapping that
    [get_context()] answers. [Http404] stands for any other exception handed
    to the handler. *)
Inductive Exception :=
| Http404
| ContextualizedHttp404
    (template_name : string) (http_status : Z)
    (get_context : gmap string PyVal).

Inductive Response :=
| HttpResponse (content : string) (status_code : Z)
| Rendered (template_name : string) (context : gmap string PyVal)
           (status_code : Z).

(** [render(request, template_name, context=context)]: the template engine
    is outside this development; the response records what was rendered. *)
Definition render (request : Request) (template_name : string)
    (context : gmap string PyVal) : Response :=
  Rendered template_name context 200.

Definition set_status_code (r : Response) (status : Z) : Response :=
  match r with
  | HttpResponse c _ => HttpResponse c status
  | Rendered t c _ => Rendered t c status
  end.

Definition fast_404 (request : Request) : Response :=
  HttpResponse "Not Found." 404.

Definition default_template_name : string := "errors/404/base.html".

(** The guard of the handler:
    [request.resolver_match and
     request.resolver_match.url_name != "proxito_404_handler"]. *)
Definition not_from_404_handler (request : Request) : bool :=
  match resolver_match request with
  | None => false
  | Some rm => negb (bool_decide (url_name rm = Some "proxito_404_handler"))
  end.

Definition proxito_404_page_handler (request : Request)
    (template_name : string) (exception : option Exception) : Response :=
  if not_from_404_handler request then fast_404 request
  else
    let context : gmap string PyVal := ∅ in
    let http_status := 404%Z in
    let '(context, template_name, http_status) :=
      match exception with
      | Some (ContextualizedHttp404 t s ctx) => (dict_update context ctx, t, s)
      | _ => (context, template_name, http_status)
      end in
    let context :=
      <["path_not_found" :=
          py_or (dict_get context "path_not_found") (PyStr (path request))]>
        context in
    let r := render request template_name context in
    set_status_code r http_status.

Definition is_rendered (r : Response) : bool :=
  match r with
  | Rendered _ _ _ => true
  | HttpResponse _ _ => false
  end.

Definition rendered_context (r : Response) : option (gmap string PyVal) :=
  match r with
  | Rendered _ c _ => Some c
  | HttpResponse _ _ => None
  end.

(** What [exception.get_context()] supplies; nothing when the exception is
    not a [ContextualizedHttp404]. *)
Definition exception_context (exception : option Exception)
    : gmap string PyVal :=
  match exception with
  | Some (ContextualizedHttp404 _ _ ctx) => ctx
  | _ => ∅
  end.

Definition is_contextualized (exception : option Exception) : bool :=
  match exception with
  | Some (ContextualizedHttp404 _ _ _) => true
  | _ => false
  end.

End Proxito404.

(** ** Resolving the project of a request

    The body of [_get_project_data_from_request]. The decorators
    [map_project_slug] and [map_subproject_slug] have turned the slugs of the
    URL into the [project] and [subproject] instances before the body runs. *)

Module ProjectData.

(** Model instances are passed by reference. *)
Definition ProjectRef := nat.

(** Modelled from the spec: the [Project] model class is not part of the
    sources at hand; the record holds the attributes the view reads
    ([slug], [language], [single_version], [urlconf], the [translations]
    relation) and [default_version], the slug that [get_default_version()]
    answers. *)
Record Project := mkProject {
  slug : string;
  language : string;
  single_version : bool;
  default_version : string;
  urlconf : option string;
  translations : list ProjectRef;
}.

Definition get_default_version (p : Project) : string := default_version p.

(** What the view can reach: the project instances, the request and the log. *)
Record World := mkWorld {
  objects : ProjectRef -> Project;
  request : Request;
  log : list LogRecord;
}.

Inductive Exn :=
| Http404 (msg : string)
| MultipleObjectsReturned.

Inductive Outcome (A : Type) :=
| Return (a : A)
| Raise (e : Exn).
Arguments Return {A} a.
Arguments Raise {A} e.

(** Computations that read and write the world and may raise. *)
Definition M (A : Type) : Type := World -> Outcome A * World.

Definition ret {A} (a : A) : M A := fun w => (Return a, w).

Definition bind {A B} (m : M A) (k : A -> M B) : M B :=
  fun w =>
    match m w with
    | (Return a, w') => k a w'
    | (Raise e, w') => (Raise e, w')
    end.

Definition raise {A} (e : Exn) : M A := fun w => (Raise e, w).

Notation "x ←@ m ; k" := (bind m (fun x => k))
  (at level 100, m at next level, right associativity, only parsing).
Notation "'do' m ; k" := (bind m (fun _ => k))
  (at level 100, m at next level, right associativity, only parsing).

(** Attribute reads of a project instance. *)
Definition attr {A} (r : ProjectRef) (field : Project -> A) : M A :=
  fun w => (Return (field (objects w r)), w).

Definition with_log (w : World) (r : LogRecord) : World :=
  {| objects := objects w; request := request w; log := log w ++ [r] |}.

Definition with_request (w : World) (r : Request) : World :=
  {| objects := objects w; request := r; log := log w |}.

Definition log_warning (event : string) (fields : list (string * PyVal))
    : M unit :=
  fun w => (Return tt, with_log w (mkLog "warning" event fields)).

(** [request.path_project_slug = v]. *)
Definition set_path_project_slug (v : string) : M unit :=
  fun w =>
    (Return tt,
     with_request w
       {| path := path (request w);
          resolver_match := resolver_match (request w);
          path_project_slug := Some v;
          path_version_slug := path_version_slug (request w) |}).

(** [request.path_version_slug = v]. *)
Definition set_path_version_slug (v : option string) : M unit :=
  fun w =>
    (Return tt,
     with_request w
       {| path := path (request w);
          resolver_match := resolver_match (request w);
          path_project_slug := path_project_slug (request w);
          path_version_slug := Some v |}).

(** [get_object_or_404(queryset, language=lang)]: [QuerySet.get] answers the
    only match, [DoesNotExist] becomes [Http404], several matches raise
    [MultipleObjectsReturned]. *)
Definition get_object_or_404 (queryset : list ProjectRef) (lang : string)
    : M ProjectRef :=
  fun w =>
    match filter (fun r => language (objects w r) = lang) queryset with
    | [] => raise (Http404 "No Project matches the given query.") w
    | [r] => ret r w
    | _ :: _ :: _ => raise MultipleObjectsReturned w
    end.

(** [subproject or project]. *)
Definition most_relevant (project : ProjectRef) (subproject : option ProjectRef)
    : ProjectRef :=
  match subproject with
  | Some s => s
  | None => project
  end.

(** The [str] held by a variable that tested true. *)
Definition str_of (o : option string) : string := default "" o.

(** "Handle single-version projects that have URLs like a real project". *)
Definition fold_single_version (current_project : ProjectRef)
    (lang_slug version_slug : option string) (filename : string)
    : M (option string * option string * string) :=
  single ←@ attr current_project single_version;
  if single then
    if truthy_str lang_slug && truthy_str version_slug then
      let filename :=
        os_path_join (str_of lang_slug) [str_of version_slug; filename] in
      do log_warning
           ("URL looks like versioned on a single version project. "
            ++ "Changing filename to match.")
           [("filename", PyStr filename)];
      ret (None, None, filename)
    else ret (lang_slug, version_slug, filename)
  else ret (lang_slug, version_slug, filename).

(** "Check to see if we need to serve a translation". *)
Definition resolve_translation (current_project : ProjectRef)
    (lang_slug : option string) : M ProjectRef :=
  own ←@ attr current_project language;
  if negb (truthy_str lang_slug) || bool_decide (lang_slug = Some own)
  then ret current_project
  else
    qs ←@ attr current_project translations;
    get_object_or_404 qs (str_of lang_slug).

(** [project.urlconf and token not in project.urlconf], as a truth value. *)
Definition urlconf_omits (token : string) (urlconf : option string) : bool :=
  match urlconf with
  | None => false
  | Some u => truthy_str (Some u) && negb (contains token u)
  end.

(** "Handle single version by grabbing the default version". *)
Definition default_version_slug (project final_project : ProjectRef)
    (version_slug : option string) : M (option string) :=
  single ←@ attr final_project single_version;
  conf ←@ attr project urlconf;
  if (negb (truthy_str version_slug) && single)
     || (negb (truthy_str version_slug) && urlconf_omits "$version" conf)
  then
    v ←@ attr final_project get_default_version;
    ret (Some v)
  else ret version_slug.

(** "Automatically add the default language if it isn't defined in urlconf". *)
Definition default_lang_slug (project final_project : ProjectRef)
    (lang_slug : option string) : M (option string) :=
  conf ←@ attr project urlconf;
  if negb (truthy_str lang_slug) && urlconf_omits "$language" conf
  then
    l ←@ attr final_project language;
    ret (Some l)
  else ret lang_slug.

Definition _get_project_data_from_request
    (project : ProjectRef) (subproject : option ProjectRef)
    (lang_slug version_slug : option string) (filename : string)
    : M (ProjectRef * option string * option string * string) :=
  let current_project := most_relevant project subproject in
  folded ←@ fold_single_version current_project lang_slug version_slug filename;
  let '(lang_slug, version_slug, filename) := folded in
  final_project ←@ resolve_translation current_project lang_slug;
  version_slug ←@ default_version_slug project final_project version_slug;
  lang_slug ←@ default_lang_slug project final_project lang_slug;
  final_slug ←@ attr final_project slug;
  do set_path_project_slug final_slug;
  do set_path_version_slug version_slug;
  ret (final_project, lang_slug, version_slug, filename).

(** The value a call returns (or the exception it raises), and the world it
    leaves. *)
Definition result {A} (m : M A) (w : World) : Outcome A := fst (m w).
Definition world_after {A} (m : M A) (w : World) : World := snd (m w).

(** *** Values of the blocks

    The conditions and values the blocks of the view compute, as functions of
    the world; the equations of the view are stated with them. *)

(** The guard of the single-version block:
    [current_project.single_version] and [lang_slug and version_slug]. *)
Definition folds (w : World) (current_project : ProjectRef)
    (lang_slug version_slug : option string) : bool :=
  single_version (objects w current_project)
  && truthy_str lang_slug && truthy_str version_slug.

(** The warning that block logs. *)
Definition fold_warning (lang_slug version_slug : option string)
    (filename : string) : LogRecord :=
  mkLog "warning"
    "URL looks like versioned on a single version project. Changing filename to match."
    [("filename",
      PyStr (os_path_join (str_of lang_slug) [str_of version_slug; filename]))].

(** [version_slug] after the default-version block. *)
Definition defaulted_version (w : World) (project final_project : ProjectRef)
    (version_slug : option string) : option string :=
  if negb (truthy_str version_slug)
     && (single_version (objects w final_project)
         || urlconf_omits "$version" (urlconf (objects w project)))
  then Some (get_default_version (objects w final_project))
  else version_slug.

(** [lang_slug] after the default-language block. *)
Definition defaulted_lang (w : World) (project final_project : ProjectRef)
    (lang_slug : option string) : option string :=
  if negb (truthy_str lang_slug)
     && urlconf_omits "$language" (urlconf (objects w project))
  then Some (language (objects w final_project))
  else lang_slug.

(** The request after the two assignments that end the view. *)
Definition annotated (w : World) (final_project : ProjectRef)
    (version_slug : option string) : Request :=
  {| path := path (request w);
     resolver_match := resolver_match (request w);
     path_project_slug := Some (slug (objects w final_project));
     path_version_slug := Some version_slug |}.

End ProjectData.

(** ** Reconciling a subscription with Stripe *)

Module Subscriptions.

(** A [datetime]; such a value is always true, so [if d:] tests only for
    [None]. *)
Definition datetime := Z.

(** Modelled from the spec: the model classes [Plan], [Organization] and
    [Subscription] are not part of the sources at hand, and the spec only
    names the subscription and organization state they hold; the records
    below have the attributes that [update_from_stripe], [_get_plan] and the
    test of the event handlers read and write. *)
Record Plan := mkPlan {
  plan_pk : Z;
  plan_slug : string;
  plan_name : string;
  plan_stripe_id : string;
}.

(** An organization instance; [organization_change_reason] is the attribute
    that [set_change_reason] (of [readthedocs.core.history], not part of the
    sources at hand) leaves on it. *)
Record Organization := mkOrganization {
  organization_pk : Z;
  organization_slug : string;
  disabled : bool;
  organization_change_reason : option string;
}.

(** A subscription instance, with the related organization instance it
    caches. *)
Record Subscription := mkSubscription {
  subscription_pk : Z;
  status : string;
  stripe_id : option string;
  plan : option Plan;
  end_date : option datetime;
  trial_end_date : option datetime;
  organization : Organization;
  change_reason : option string;
}.

Record StripePrice := mkStripePrice {
  price_id : string;
}.

Record StripeItem := mkStripeItem {
  price : StripePrice;
}.

Record StripeSubscription := mkStripeSubscription {
  stripe_subscription_id : string;
  stripe_status : string;
  current_period_start : option datetime;
  current_period_end : option datetime;
  trial_end : option datetime;
  items : list StripeItem;
}.

(** Rows as [save()] writes them. *)
Record OrganizationRow := mkOrganizationRow {
  row_organization_slug : string;
  row_disabled : bool;
}.

Record SubscriptionRow := mkSubscriptionRow {
  row_status : string;
  row_stripe_id : option string;
  row_plan : option Z;
  row_end_date : option datetime;
  row_trial_end_date : option datetime;
  row_organization : Z;
}.

Record World := mkWorld {
  plans : list Plan;
  organizations : gmap Z OrganizationRow;
  subscriptions : gmap Z SubscriptionRow;
  log : list LogRecord;
}.

Definition emit (r : LogRecord) (w : World) : World :=
  {| plans := plans w; organizations := organizations w;
     subscriptions := subscriptions w; log := log w ++ [r] |}.

(** [organization.save()]. *)
Definition save_organization (o : Organization) (w : World) : World :=
  {| plans := plans w;
     organizations :=
       <[organization_pk o :=
           mkOrganizationRow (organization_slug o) (disabled o)]>
         (organizations w);
     subscriptions := subscriptions w;
     log := log w |}.

(** [rtd_subscription.save()]. *)
Definition save_subscription (s : Subscription) (w : World) : World :=
  {| plans := plans w;
     organizations := organizations w;
     subscriptions :=
       <[subscription_pk s :=
           mkSubscriptionRow (status s) (stripe_id s) (plan_pk <$> plan s)
             (end_date s) (trial_end_date s)
             (organization_pk (organization s))]>
         (subscriptions w);
     log := log w |}.

(** Attribute assignments on the subscription instance. *)
Definition set_status (v : string) (s : Subscription) : Subscription :=
  mkSubscription (subscription_pk s) v (stripe_id s) (plan s) (end_date s)
    (trial_end_date s) (organization s) (change_reason s).

Definition set_stripe_id (v : option string) (s : Subscription) : Subscription :=
  mkSubscription (subscription_pk s) (status s) v (plan s) (end_date s)
    (trial_end_date s) (organization s) (change_reason s).

Definition set_plan (v : option Plan) (s : Subscription) : Subscription :=
  mkSubscription (subscription_pk s) (status s) (stripe_id s) v (end_date s)
    (trial_end_date s) (organization s) (change_reason s).

Definition set_end_date (v : option datetime) (s : Subscription) : Subscription :=
  mkSubscription (subscription_pk s) (status s) (stripe_id s) (plan s) v
    (trial_end_date s) (organization s) (change_reason s).

Definition set_trial_end_date (v : option datetime) (s : Subscription)
    : Subscription :=
  mkSubscription (subscription_pk s) (status s) (stripe_id s) (plan s)
    (end_date s) v (organization s) (change_reason s).

Definition set_organization (v : Organization) (s : Subscription)
    : Subscription :=
  mkSubscription (subscription_pk s) (status s) (stripe_id s) (plan s)
    (end_date s) (trial_end_date s) v (change_reason s).

Definition set_change_reason (v : string) (s : Subscription) : Subscription :=
  mkSubscription (subscription_pk s) (status s) (stripe_id s) (plan s)
    (end_date s) (trial_end_date s) (organization s) (Some v).

(** Attribute assignments on the organization instance. *)
Definition set_disabled (v : bool) (o : Organization) : Organization :=
  mkOrganization (organization_pk o) (organization_slug o) v
    (organization_change_reason o).

Definition set_organization_change_reason (v : string) (o : Organization)
    : Organization :=
  mkOrganization (organization_pk o) (organization_slug o) (disabled o) (Some v).

(** Lower-casing of the ASCII letters, for [icontains]. *)
Definition lower_ascii (c : ascii) : ascii :=
  let n := nat_of_ascii c in
  if (65 <=? n)%nat && (n <=? 90)%nat then ascii_of_nat (n + 32) else c.

Fixpoint lower (s : string) : string :=
  match s with
  | EmptyString => EmptyString
  | String c s' => String (lower_ascii c) (lower s')
  end.

Definition icontains (sub s : string) : bool := contains (lower sub) (lower s).

(** The query of [_get_plan]:
    [Plan.objects.exclude(slug__contains="custom")
       .exclude(name__icontains="Custom").get(stripe_id=stripe_price.id)]. *)
Definition plan_candidates (w : World) (stripe_price : StripePrice) : list Plan :=
  filter (fun p => plan_stripe_id p = price_id stripe_price)
    (filter (fun p => icontains "Custom" (plan_name p) = false)
       (filter (fun p => contains "custom" (plan_slug p) = false) (plans w))).

(** [_get_plan]: the only candidate, or [None] (with a log line) when
    [get] raises [DoesNotExist] or [MultipleObjectsReturned]. *)
Definition _get_plan (stripe_price : StripePrice) (w : World)
    : option Plan * World :=
  match plan_candidates w stripe_price with
  | [p] => (Some p, w)
  | _ =>
      (None,
       emit (mkLog "info" "Plan lookup failed."
               [("stripe_price", PyStr (price_id stripe_price))]) w)
  end.

(** The [for ... else] loop over the items of the stripe subscription: the
    first plan found is assigned; when the loop ends without [break] an error
    is logged. *)
Fixpoint update_plan (stripe_items : list StripeItem)
    (rtd_subscription : Subscription) (w : World) : Subscription * World :=
  match stripe_items with
  | [] =>
      (rtd_subscription,
       emit (mkLog "error" "Plan not found, skipping plan update." []) w)
  | stripe_item :: rest =>
      match _get_plan (price stripe_item) w with
      | (Some p, w') => (set_plan (Some p) rtd_subscription, w')
      | (None, w') => update_plan rest rtd_subscription w'
      end
  end.

Definition klass : string := "SubscriptionManager".

Definition the_change_reason : string :=
  "origin=stripe-subscription class=" ++ klass.

(** "This should only happen if an existing user creates a new subscription,
    after their previous subscription was cancelled." *)
Definition replace_stripe_id (stripe_subscription : StripeSubscription)
    (rtd_subscription : Subscription) (w : World) : Subscription * World :=
  if bool_decide
       (Some (stripe_subscription_id stripe_subscription)
        <> stripe_id rtd_subscription)
  then
    (set_stripe_id (Some (stripe_subscription_id stripe_subscription))
       rtd_subscription,
     emit (mkLog "info" "Replacing stripe subscription."
             [("old_stripe_subscription",
               from_option PyStr PyNone (stripe_id rtd_subscription));
              ("new_stripe_subscription",
               PyStr (stripe_subscription_id stripe_subscription))]) w)
  else (rtd_subscription, w).

(** "Update trial end date if it's present". *)
Definition update_trial_end_date (stripe_subscription : StripeSubscription)
    (rtd_subscription : Subscription) : Subscription :=
  let trial_end_date := trial_end stripe_subscription in
  match trial_end_date with
  | Some _ => set_trial_end_date trial_end_date rtd_subscription
  | None => rtd_subscription
  end.

(** The [if ... elif ...] on the status that moves [end_date]. *)
Definition update_end_date (stripe_subscription : StripeSubscription)
    (rtd_subscription : Subscription) : Subscription :=
  let start_date := current_period_start stripe_subscription in
  let end_date := current_period_end stripe_subscription in
  if bool_decide (stripe_status stripe_subscription = "active")
     && bool_decide (is_Some end_date)
  then set_end_date end_date rtd_subscription
  else if bool_decide (stripe_status stripe_subscription = "past_due")
          && bool_decide (is_Some start_date)
  then set_end_date start_date rtd_subscription
  else rtd_subscription.

(** "Ensure that the organization is in the correct state." The organization
    instance is the one cached on the subscription, so the assignment to
    [disabled] is seen through [rtd_subscription.organization]. *)
Definition ensure_organization_enabled
    (stripe_subscription : StripeSubscription) (change_reason : string)
    (rtd_subscription : Subscription) (w : World) : Subscription * World :=
  let organization := organization rtd_subscription in
  if bool_decide (stripe_status stripe_subscription = "active")
     && disabled organization
  then
    let w :=
      emit (mkLog "warning" "Re-enabling organization with valid subscription."
              [("organization_slug", PyStr (organization_slug organization));
               ("stripe_subscription",
                PyInt (subscription_pk rtd_subscription))]) w in
    let organization := set_disabled false organization in
    let organization :=
      set_organization_change_reason change_reason organization in
    let w := save_organization organization w in
    (set_organization organization rtd_subscription, w)
  else (rtd_subscription, w).

(** [update_from_stripe]. ([log.bind] only tags the later log lines with the
    stripe subscription and is left out.) *)
Definition update_from_stripe (rtd_subscription : Subscription)
    (stripe_subscription : StripeSubscription) (w : World)
    : Subscription * World :=
  let rtd_subscription :=
    set_status (stripe_status stripe_subscription) rtd_subscription in
  let '(rtd_subscription, w) :=
    replace_stripe_id stripe_subscription rtd_subscription w in
  let rtd_subscription :=
    update_trial_end_date stripe_subscription rtd_subscription in
  let '(rtd_subscription, w) :=
    update_plan (items stripe_subscription) rtd_subscription w in
  let rtd_subscription :=
    update_end_date stripe_subscription rtd_subscription in
  let change_reason := the_change_reason in
  let '(rtd_subscription, w) :=
    ensure_organization_enabled stripe_subscription change_reason
      rtd_subscription w in
  let rtd_subscription := set_change_reason change_reason rtd_subscription in
  let w := save_subscription rtd_subscription w in
  (rtd_subscription, w).

End Subscriptions.

(** ** Patching [os.path] in tests

    [readthedocs/rtd_tests/mocks/paths.py]. The module [os.path] is the
    dictionary of its attributes that take a path; [check] functions answer
    any value, [None] meaning that the path is not faked. *)

Module FakePaths.

Inductive Outcome (A : Type) :=
| Ok (a : A)
| AttributeError (name : string).
Arguments Ok {A} a.
Arguments AttributeError {A} name.

(** What [mock.patch.object(os.path, target, new)] holds. *)
Record Patcher := mkPatcher {
  patch_target : string;
  patch_new : string -> PyVal;
}.

(** Entering the [with] block: the attribute must exist, and is replaced. *)
Definition enter (p : Patcher) (os_path : gmap string (string -> PyVal))
    : Outcome (gmap string (string -> PyVal)) :=
  match os_path !! patch_target p with
  | None => AttributeError (patch_target p)
  | Some _ => Ok (<[patch_target p := patch_new p]> os_path)
  end.

(** The closure [patched_exists] of [fake_paths]. *)
Definition patched_exists (check : string -> PyVal)
    (original_exists : string -> PyVal) (path : string) : PyVal :=
  let result := check path in
  match result with
  | PyNone => original_exists path
  | _ => result
  end.

(** [fake_paths(check, target="exists")]: [original_exists] is read from
    [os.path.exists] when the function is called, whatever the target. *)
Definition fake_paths (check : string -> PyVal) (target : string)
    (os_path : gmap string (string -> PyVal)) : Outcome Patcher :=
  match os_path !! "exists" with
  | None => AttributeError "exists"
  | Some original_exists =>
      Ok (mkPatcher target (patched_exists check original_exists))
  end.

(** [fake_paths_lookup(path_dict)]. *)
Definition fake_paths_lookup (path_dict : gmap string PyVal)
    (os_path : gmap string (string -> PyVal)) : Outcome Patcher :=
  let check path := default PyNone (path_dict !! path) in
  fake_paths check "exists" os_path.

(** [fake_paths_by_regex(pattern, target="exists", exists=True)]. The regular
    expression engine is taken as given: [search pattern path] tells whether
    [re.compile(pattern).search(path)] finds a match. *)
Definition fake_paths_by_regex (search : string -> string -> bool)
    (pattern : string) (target : string) (exists_ : PyVal)
    (os_path : gmap string (string -> PyVal)) : Outcome Patcher :=
  let regex := search pattern in
  let check path := if regex path then exists_ else PyNone in
  fake_paths check target os_path.

(** [with patcher: ... os.path.name(path)]: the value of the call inside the
    block, when the patcher could be made and entered and the attribute
    exists. *)
Definition call_inside (patcher : Outcome Patcher)
    (os_path : gmap string (string -> PyVal)) (name path : string)
    : option PyVal :=
  match patcher with
  | AttributeError _ => None
  | Ok p =>
      match enter p os_path with
      | AttributeError _ => None
      | Ok patched => (fun f => f path) <$> patched !! name
      end
  end.

End FakePaths.

(** ** Readings of a response *)

(** [response.status_code]. *)
Definition response_status (r : Proxito404.Response) : Z :=
  match r with
  | Proxito404.HttpResponse _ status => status
  | Proxito404.Rendered _ _ status => status
  end.

(** ** The plan chosen for a stripe subscription *)

(** The plan that the loop over the items of [update_from_stripe] assigns:
    that of the first item for which [_get_plan] finds a plan, [None] when
    the loop ends without [break]. *)
Fixpoint selected_plan (w : Subscriptions.World)
    (stripe_items : list Subscriptions.StripeItem)
    : option Subscriptions.Plan :=
  match stripe_items with
  | [] => None
  | stripe_item :: rest =>
      match Subscriptions.plan_candidates w (Subscriptions.price stripe_item)
      with
      | [p] => Some p
      | _ => selected_plan w rest
      end
  end.

(** The row that [save()] writes for a subscription instance. *)
Definition subscription_row (s : Subscriptions.Subscription)
    : Subscriptions.SubscriptionRow :=
  Subscriptions.mkSubscriptionRow (Subscriptions.status s)
    (Subscriptions.stripe_id s)
    (Subscriptions.plan_pk <$> Subscriptions.plan s)
    (Subscriptions.end_date s) (Subscriptions.trial_end_date s)
    (Subscriptions.organization_pk (Subscriptions.organization s)).

(** The line logged when the loop over the items ends without [break]. *)
Definition plan_not_found : LogRecord :=
  mkLog "error" "Plan not found, skipping plan update." [].

(** ** Concrete inputs *)

Definition request_on_404_route : Request :=
  mkRequest "/_proxito_404_/en/latest/missing.html"
    (Some (mkResolverMatch (Some "proxito_404_handler"))) None None.

Definition request_on_docs_route : Request :=
  mkRequest "/en/latest/missing.html"
    (Some (mkResolverMatch (Some "docs_detail"))) None None.

Definition request_unresolved : Request :=
  mkRequest "/no/such/route" None None None.

Definition contextualized_example : option Proxito404.Exception :=
  Some (Proxito404.ContextualizedHttp404 "errors/404/no_project.html" 404
          (<["path_not_found" := PyStr "/en/latest/gone.html"]> ∅)).

(** The project instances: a single-version handbook; a guide with a
    single-version Spanish translation; a single-version manual whose
    [urlconf] names every placeholder; an API reference whose [urlconf] names
    only [$filename], with a French translation; a single-version FAQ whose
    [urlconf] names only [$filename]. *)
Definition example_objects : ProjectData.ProjectRef -> ProjectData.Project :=
  fun r =>
    match r with
    | 0 => ProjectData.mkProject "handbook" "en" true "latest" None []
    | 1 => ProjectData.mkProject "guide" "en" false "stable" None [2]
    | 2 => ProjectData.mkProject "guide-es" "es" true "latest" None []
    | 3 => ProjectData.mkProject "manual" "en" true "stable"
             (Some "$language/$version/$filename") []
    | 4 => ProjectData.mkProject "api" "en" false "latest"
             (Some "docs/$filename") [6]
    | 5 => ProjectData.mkProject "faq" "en" true "latest"
             (Some "help/$filename") []
    | _ => ProjectData.mkProject "api-fr" "fr" false "v2" None []
    end.

Definition example_world : ProjectData.World :=
  ProjectData.mkWorld example_objects
    (mkRequest "/en/latest/index.html"
       (Some (mkResolverMatch (Some "docs_detail"))) None None) [].

(** The fixture of [test_reenabled_organization_on_subscription_updated_event]:
    a disabled organization with a canceled subscription, and an active stripe
    subscription. *)
Definition example_organization : Subscriptions.Organization :=
  Subscriptions.mkOrganization 7 "org" true None.

Definition example_subscription : Subscriptions.Subscription :=
  Subscriptions.mkSubscription 3 "canceled" (Some "sub_9LtsU02uvjO6Ed") None
    None None example_organization None.

Definition example_stripe_subscription : Subscriptions.StripeSubscription :=
  Subscriptions.mkStripeSubscription "sub_9LtsU02uvjO6Ed" "active"
    (Some 1700000000%Z) (Some 1702592000%Z) (Some 1702592000%Z)
    [Subscriptions.mkStripeItem (Subscriptions.mkStripePrice "trialing")].

Definition example_billing_world : Subscriptions.World :=
  Subscriptions.mkWorld
    [Subscriptions.mkPlan 1 "trialing" "Trialing" "trialing"]
    (<[7%Z := Subscriptions.mkOrganizationRow "org" true]> ∅) ∅ [].

(** A file system with one file, seen through [os.path.exists] and
    [os.path.lexists], and the matcher of the pattern [\.pdf$]. *)
Definition example_exists (p : string) : PyVal :=
  PyBool (bool_decide (p = "/etc/hosts")).

Definition example_os_path : gmap string (string -> PyVal) :=
  <["exists" := example_exists]> (<["lexists" := example_exists]> ∅).

Definition example_search (pattern path : string) : bool :=
  bool_decide (pattern = "\.pdf$") && endswith ".pdf" path.

Definition example_path_dict : gmap string PyVal :=
  <["my.txt" := PyBool true]> (<["no.txt" := PyBool false]> ∅).

(** The patcher of [fake_paths_lookup(example_path_dict)], and [os.path]
    inside its block. *)
Definition example_outer_patcher : FakePaths.Patcher :=
  FakePaths.mkPatcher "exists"
    (FakePaths.patched_exists
       (fun path => default PyNone (example_path_dict !! path))
       example_exists).

Definition example_os_path_inside : gmap string (string -> PyVal) :=
  <["exists" := FakePaths.patch_new example_outer_patcher]> example_os_path.

Definition contextualized_example_with_project : option Proxito404.Exception :=
  Some (Proxito404.ContextualizedHttp404 "errors/404/no_version.html" 404
          (<["project_slug" := PyStr "guide"]>
             (<["path_not_found" := PyStr ""]> ∅))).

(** A project with two German translations. *)
Definition ambiguous_world : ProjectData.World :=
  ProjectData.mkWorld
    (fun r =>
       match r with
       | 0 => ProjectData.mkProject "tool" "en" false "latest" None [1; 2]
       | 1 => ProjectData.mkProject "tool-de" "de" false "latest" None []
       | _ => ProjectData.mkProject "tool-de-at" "de" false "latest" None []
       end)
    (mkRequest "/de/latest/index.html"
       (Some (mkResolverMatch (Some "docs_detail"))) None None) [].

(** The stripe subscription of the test, unpaid and canceled. *)
Definition past_due_stripe_subscription : Subscriptions.StripeSubscription :=
  Subscriptions.mkStripeSubscription "sub_9LtsU02uvjO6Ed" "past_due"
    (Some 1700000000%Z) (Some 1702592000%Z) None
    [Subscriptions.mkStripeItem (Subscriptions.mkStripePrice "trialing")].

Definition canceled_stripe_subscription : Subscriptions.StripeSubscription :=
  Subscriptions.mkStripeSubscription "sub_9LtsU02uvjO6Ed" "canceled"
    (Some 1700000000%Z) (Some 1702592000%Z) (Some 1702592000%Z) [].

Definition two_items_stripe_subscription : Subscriptions.StripeSubscription :=
  Subscriptions.mkStripeSubscription "sub_9LtsU02uvjO6Ed" "active"
    (Some 1700000000%Z) (Some 1702592000%Z) None
    [Subscriptions.mkStripeItem (Subscriptions.mkStripePrice "unknown");
     Subscriptions.mkStripeItem (Subscriptions.mkStripePrice "trialing")].

(** A plans table with a custom plan and two plans that share a stripe id. *)
Definition custom_plans_world : Subscriptions.World :=
  Subscriptions.mkWorld
    [Subscriptions.mkPlan 1 "basic" "Basic" "basic";
     Subscriptions.mkPlan 2 "basic-2023" "Basic" "basic";
     Subscriptions.mkPlan 3 "acme" "ACME CUSTOM plan" "enterprise"]
    ∅ ∅ [].



(** * Properties *)

(** ** Strings and paths *)

Section Paths.

Lemma append_assoc (a b c : string) : (a ++ b) ++ c = a ++ b ++ c.
Proof.
  induction a as [|x a IH]; [done|].
  change (String x ((a ++ b) ++ c) = String x (a ++ b ++ c)). by rewrite IH.
Qed.

Lemma app_nonempty_r (a v : string) : v <> "" -> a ++ v <> "".
Proof. destruct a; [done | discriminate]. Qed.

Lemma endswith_sep_app (a v : string) :
  v <> "" -> endswith sep (a ++ v) = endswith sep v.
Proof.
  intros Hv. induction a as [|c a IH]; [done|].
  change (endswith sep (String c a ++ v))
    with (String.eqb (String c (a ++ v)) sep || endswith sep (a ++ v)).
  rewrite IH.
  assert (Hne : String.eqb (String c (a ++ v)) sep = false).
  { apply String.eqb_neq. unfold sep. intros [= _ Heq].
    by apply (app_nonempty_r a v). }
  by rewrite Hne.
Qed.

(** On components that carry no separator at their ends, [os.path.join]
    writes [lang/version/filename]. *)
Lemma os_path_join_clean (l v f : string) :
  l <> "" -> v <> "" ->
  endswith sep l = false -> endswith sep v = false ->
  startswith sep v = false -> startswith sep f = false ->
  os_path_join l [v; f] = l ++ "/" ++ v ++ "/" ++ f.
Proof.
  intros Hl Hv Hel Hev Hsv Hsf. unfold os_path_join. cbn [fold_left].
  assert (H1 : join_step l v = l ++ sep ++ v).
  { unfold join_step. rewrite Hsv, Hel.
    apply String.eqb_neq in Hl. by rewrite Hl. }
  rewrite H1. unfold join_step. rewrite Hsf.
  assert (Hne : String.eqb (l ++ sep ++ v) "" = false).
  { apply String.eqb_neq, app_nonempty_r. discriminate. }
  rewrite Hne, endswith_sep_app by discriminate.
  rewrite (endswith_sep_app sep v Hv), Hev. cbn [orb].
  unfold sep. by rewrite !append_assoc.
Qed.

(** A later component that starts with the separator discards what came
    before it. *)
Example os_path_join_absolute :
  os_path_join "en" ["latest"; "/index.html"] = "/index.html".
Proof. reflexivity. Qed.

Lemma truthy_str_Some (s : string) : s <> "" -> truthy_str (Some s) = true.
Proof.
  intros H. unfold truthy_str. apply String.eqb_neq in H. by rewrite H.
Qed.

End Paths.

(** ** The 404 handler *)

Section Handler404.
Import Proxito404.

Implicit Types (request : Request) (exception : option Exception).

Lemma dict_update_empty (ctx : gmap string PyVal) : dict_update ∅ ctx = ctx.
Proof. unfold dict_update. apply (right_id_L ∅ (∪)). Qed.

Lemma dict_get_empty (k : string) : dict_get ∅ k = PyNone.
Proof. unfold dict_get. by rewrite lookup_empty. Qed.

(** Past the guard, the handler renders the context the exception supplies,
    with [path_not_found] filled in. *)
Lemma handler_unfold request template_name exception :
  not_from_404_handler request = false ->
  proxito_404_page_handler request template_name exception =
    Rendered
      (match exception with
       | Some (ContextualizedHttp404 t _ _) => t
       | _ => template_name
       end)
      (<["path_not_found" :=
           py_or (dict_get (exception_context exception) "path_not_found")
                 (PyStr (path request))]> (exception_context exception))
      (match exception with
       | Some (ContextualizedHttp404 _ s _) => s
       | _ => 404%Z
       end).
Proof.
  intros Hguard. unfold proxito_404_page_handler. rewrite Hguard.
  destruct exception as [[|t s ctx]|]; simpl; try reflexivity.
  by rewrite dict_update_empty.
Qed.

Lemma guard_of_diagnostic_route request :
  resolver_match request = None
  \/ (exists rm, resolver_match request = Some rm
                 /\ url_name rm = Some "proxito_404_handler") ->
  not_from_404_handler request = false.
Proof.
  unfold not_from_404_handler.
  intros [-> | (rm & -> & Hname)]; [reflexivity|].
  by rewrite bool_decide_eq_true_2.
Qed.

Lemma guard_of_other_route request rm :
  resolver_match request = Some rm ->
  url_name rm <> Some "proxito_404_handler" ->
  not_from_404_handler request = true.
Proof.
  unfold not_from_404_handler. intros -> Hname.
  by rewrite bool_decide_eq_false_2.
Qed.

(** C5, as stated, fails: a request matched by the diagnostic route
    [proxito_404_handler] is rendered with the template, and a request matched
    by another route gets the fast response. *)
Lemma proxito_404_dispatch_counterexample :
  proxito_404_page_handler request_on_404_route default_template_name None
    = Rendered "errors/404/base.html"
        (<["path_not_found" :=
             PyStr "/_proxito_404_/en/latest/missing.html"]> ∅) 404
  /\ proxito_404_page_handler request_on_404_route default_template_name None
       <> fast_404 request_on_404_route
  /\ proxito_404_page_handler request_on_docs_route default_template_name None
       = HttpResponse "Not Found." 404
  /\ is_rendered
       (proxito_404_page_handler request_on_docs_route default_template_name
          None) = false.
Proof.
  split; [|split; [|split]].
  - rewrite handler_unfold by reflexivity. simpl.
    by rewrite dict_get_empty.
  - rewrite handler_unfold by reflexivity. discriminate.
  - reflexivity.
  - reflexivity.
Qed.

(** C5, amended: a request whose matched route exists and is not the
    diagnostic route is answered by [fast_404]; a request matched by the
    diagnostic route [proxito_404_handler] is answered by the templated
    rendering, never by the fast path. *)
Theorem proxito_404_dispatch request template_name exception :
  (forall rm,
     resolver_match request = Some rm ->
     url_name rm <> Some "proxito_404_handler" ->
     proxito_404_page_handler request template_name exception
       = fast_404 request)
  /\ (forall rm,
        resolver_match request = Some rm ->
        url_name rm = Some "proxito_404_handler" ->
        is_rendered (proxito_404_page_handler request template_name exception)
          = true
        /\ proxito_404_page_handler request template_name exception
             <> fast_404 request).
Proof.
  split.
  - intros rm Hrm Hname. unfold proxito_404_page_handler.
    by rewrite (guard_of_other_route _ _ Hrm Hname).
  - intros rm Hrm Hname.
    rewrite handler_unfold by (apply guard_of_diagnostic_route; eauto).
    split; [reflexivity | discriminate].
Qed.

Lemma proxito_404_dispatch_witness :
  proxito_404_page_handler request_on_docs_route default_template_name None
    = fast_404 request_on_docs_route
  /\ is_rendered
       (proxito_404_page_handler request_on_404_route default_template_name
          None) = true.
Proof.
  split.
  - apply (proj1 (proxito_404_dispatch request_on_docs_route
                    default_template_name None)
             (mkResolverMatch (Some "docs_detail"))).
    + reflexivity.
    + discriminate.
  - apply (proj2 (proxito_404_dispatch request_on_404_route
                    default_template_name None)
             (mkResolverMatch (Some "proxito_404_handler"))); reflexivity.
Defined.

(** C9: in every templated response of the handler the context has the key
    [path_not_found]; its value is the one the exception's context supplies
    when that is true, and [request.path] otherwise. Such a response is
    produced for every request without resolver match or matched by the
    route [proxito_404_handler], so the fallback on [request.path] is
    reached whenever the exception supplies nothing true. *)
Theorem path_not_found_populated request template_name exception :
  let supplied := dict_get (exception_context exception) "path_not_found" in
  let response :=
    proxito_404_page_handler request template_name exception in
  (forall ctx,
     rendered_context response = Some ctx ->
     ctx !! "path_not_found"
     = Some (if truthy supplied then supplied else PyStr (path request)))
  /\ (resolver_match request = None
      \/ (exists rm, resolver_match request = Some rm
                     /\ url_name rm = Some "proxito_404_handler") ->
      exists ctx,
        rendered_context response = Some ctx
        /\ (truthy supplied = true -> ctx !! "path_not_found" = Some supplied)
        /\ (truthy supplied = false ->
            ctx !! "path_not_found" = Some (PyStr (path request)))).
Proof.
  intros supplied response. subst supplied response. split.
  - intros ctx Hctx.
    destruct (not_from_404_handler request) eqn:Hguard.
    + unfold proxito_404_page_handler in Hctx. rewrite Hguard in Hctx.
      discriminate.
    + rewrite handler_unfold in Hctx by assumption. simpl in Hctx.
      injection Hctx as <-. by rewrite lookup_insert_eq.
  - intros Hroute. apply guard_of_diagnostic_route in Hroute.
    rewrite handler_unfold by assumption. eexists. split; [reflexivity|].
    rewrite lookup_insert_eq. unfold py_or.
    split; by intros ->.
Qed.

Lemma path_not_found_populated_witness :
  (exists ctx,
     rendered_context
       (proxito_404_page_handler request_on_404_route default_template_name
          None) = Some ctx
     /\ ctx !! "path_not_found"
        = Some (PyStr "/_proxito_404_/en/latest/missing.html"))
  /\ (exists ctx,
        rendered_context
          (proxito_404_page_handler request_on_404_route
             default_template_name contextualized_example_with_project)
          = Some ctx
        /\ ctx !! "path_not_found"
           = Some (PyStr "/_proxito_404_/en/latest/missing.html"))
  /\ (exists ctx,
        rendered_context
          (proxito_404_page_handler request_on_404_route
             default_template_name contextualized_example) = Some ctx
        /\ ctx !! "path_not_found" = Some (PyStr "/en/latest/gone.html")).
Proof.
  assert (Hroute :
    resolver_match request_on_404_route = None
    \/ (exists rm, resolver_match request_on_404_route = Some rm
                   /\ url_name rm = Some "proxito_404_handler")).
  { right. eexists. split; reflexivity. }
  split; [|split].
  - destruct (proj2 (path_not_found_populated request_on_404_route
                       default_template_name None) Hroute)
      as (ctx & Hctx & _ & Hfallback).
    exists ctx. split; [exact Hctx|]. apply Hfallback. reflexivity.
  - destruct (proj2 (path_not_found_populated request_on_404_route
                       default_template_name
                       contextualized_example_with_project) Hroute)
      as (ctx & Hctx & _ & Hfallback).
    exists ctx. split; [exact Hctx|]. apply Hfallback. reflexivity.
  - destruct (proj2 (path_not_found_populated request_on_404_route
                       default_template_name contextualized_example) Hroute)
      as (ctx & Hctx & Hsupplied & _).
    exists ctx. split; [exact Hctx|].
    rewrite Hsupplied; reflexivity.
Defined.

(** C10: with no resolver match at all the handler does not take the fast
    path; it renders the template, and when the exception is not a
    [ContextualizedHttp404] the default call renders
    [errors/404/base.html] with status 404. *)
Theorem no_resolver_match_renders request template_name exception :
  resolver_match request = None ->
  is_rendered (proxito_404_page_handler request template_name exception) = true
  /\ proxito_404_page_handler request template_name exception
       <> fast_404 request
  /\ (is_contextualized exception = false ->
      proxito_404_page_handler request default_template_name exception
        = Rendered "errors/404/base.html"
            (<["path_not_found" := PyStr (path request)]> ∅) 404).
Proof.
  intros Hnone.
  assert (Hguard : not_from_404_handler request = false)
    by (apply guard_of_diagnostic_route; by left).
  rewrite !handler_unfold by assumption.
  split; [reflexivity | split; [discriminate|]].
  intros Hplain. destruct exception as [[|t s c]|]; try discriminate;
    simpl; by rewrite dict_get_empty.
Qed.

Lemma no_resolver_match_renders_witness :
  proxito_404_page_handler request_unresolved default_template_name None
    = Rendered "errors/404/base.html"
        (<["path_not_found" := PyStr "/no/such/route"]> ∅) 404.
Proof.
  apply (no_resolver_match_renders request_unresolved default_template_name
           None); reflexivity.
Defined.

End Handler404.

(** ** Resolving the project of a request *)

Section ProjectDataFacts.
Import ProjectData.

Implicit Types (w : World) (project current_project final_project : ProjectRef)
  (subproject : option ProjectRef) (lang_slug version_slug : option string)
  (filename : string).

(** *** The equations of the blocks *)

Lemma bind_Return {A B} (m : M A) (k : A -> M B) w a w' :
  m w = (Return a, w') -> bind m k w = k a w'.
Proof. unfold bind. by intros ->. Qed.

Lemma bind_Raise {A B} (m : M A) (k : A -> M B) w e w' :
  m w = (Raise e, w') -> bind m k w = (Raise e, w').
Proof. unfold bind. by intros ->. Qed.

Lemma fold_single_version_eq current_project lang_slug version_slug filename w :
  fold_single_version current_project lang_slug version_slug filename w
    = if folds w current_project lang_slug version_slug
      then (Return (None, None,
                    os_path_join (str_of lang_slug)
                      [str_of version_slug; filename]),
            with_log w (fold_warning lang_slug version_slug filename))
      else (Return (lang_slug, version_slug, filename), w).
Proof.
  unfold folds, fold_single_version, bind, attr, log_warning, ret.
  destruct (single_version (objects w current_project)); cbn [andb]; [|done].
  destruct (truthy_str lang_slug && truthy_str version_slug); reflexivity.
Qed.

(** Translation resolution only reads. *)
Lemma resolve_translation_eq current_project lang_slug w :
  resolve_translation current_project lang_slug w
    = (result (resolve_translation current_project lang_slug) w, w).
Proof.
  unfold result, resolve_translation, get_object_or_404, bind, attr, ret,
    raise.
  cbn. case_match; [done|]. cbn. repeat case_match; reflexivity.
Qed.

Lemma resolve_translation_objects current_project lang_slug w w' :
  objects w' = objects w ->
  result (resolve_translation current_project lang_slug) w'
    = result (resolve_translation current_project lang_slug) w.
Proof.
  intros Hobj.
  unfold result, resolve_translation, get_object_or_404, bind, attr, ret,
    raise.
  cbn. rewrite Hobj. case_match; [done|]. cbn. rewrite Hobj.
  repeat case_match; done.
Qed.

Lemma resolve_translation_current current_project lang_slug w :
  truthy_str lang_slug = false
  \/ lang_slug = Some (language (objects w current_project)) ->
  result (resolve_translation current_project lang_slug) w
    = Return current_project.
Proof.
  intros H. unfold result, resolve_translation, bind, attr, ret. cbn.
  destruct H as [-> | ->]; [done|].
  by rewrite bool_decide_eq_true_2, orb_true_r.
Qed.

Lemma resolve_translation_lookup current_project l w :
  l <> "" -> l <> language (objects w current_project) ->
  result (resolve_translation current_project (Some l)) w
    = result (get_object_or_404
                (translations (objects w current_project)) l) w.
Proof.
  intros Hl Hown. unfold result, resolve_translation, bind, attr, ret. cbn.
  apply String.eqb_neq in Hl. rewrite Hl. cbn.
  rewrite bool_decide_eq_false_2 by congruence. reflexivity.
Qed.

Lemma default_version_slug_eq project final_project version_slug w :
  default_version_slug project final_project version_slug w
    = (Return (defaulted_version w project final_project version_slug), w).
Proof.
  unfold default_version_slug, defaulted_version, bind, attr, ret.
  rewrite <- andb_orb_distrib_r. by case_match.
Qed.

Lemma default_lang_slug_eq project final_project lang_slug w :
  default_lang_slug project final_project lang_slug w
    = (Return (defaulted_lang w project final_project lang_slug), w).
Proof.
  unfold default_lang_slug, defaulted_lang, bind, attr, ret. by case_match.
Qed.

(** The view, block after block: what it returns or raises, and the world it
    leaves. *)
Lemma view_run project subproject lang_slug version_slug filename w :
  let current_project := most_relevant project subproject in
  let folded := folds w current_project lang_slug version_slug in
  let l1 := if folded then None else lang_slug in
  let v1 := if folded then None else version_slug in
  let f1 :=
    if folded
    then os_path_join (str_of lang_slug) [str_of version_slug; filename]
    else filename in
  let w1 :=
    if folded then with_log w (fold_warning lang_slug version_slug filename)
    else w in
  _get_project_data_from_request project subproject lang_slug version_slug
    filename w
  = match result (resolve_translation current_project l1) w with
    | Return final_project =>
        let v2 := defaulted_version w project final_project v1 in
        (Return (final_project, defaulted_lang w project final_project l1,
                 v2, f1),
         with_request w1 (annotated w final_project v2))
    | Raise e => (Raise e, w1)
    end.
Proof.
  intros current_project folded l1 v1 f1 w1.
  unfold _get_project_data_from_request. fold current_project.
  assert (Hobj : objects w1 = objects w) by (subst w1; by destruct folded).
  assert (Hreq : request w1 = request w) by (subst w1; by destruct folded).
  rewrite (bind_Return _ _ w (l1, v1, f1) w1); cycle 1.
  { rewrite fold_single_version_eq. fold folded.
    subst l1 v1 f1 w1. by destruct folded. }
  rewrite <- (resolve_translation_objects current_project l1 w w1 Hobj).
  pose proof (resolve_translation_eq current_project l1 w1) as Hres.
  destruct (result (resolve_translation current_project l1) w1)
    as [final_project|e].
  - rewrite (bind_Return _ _ _ _ _ Hres).
    rewrite (bind_Return _ _ _ _ _ (default_version_slug_eq _ _ _ _)).
    rewrite (bind_Return _ _ _ _ _ (default_lang_slug_eq _ _ _ _)).
    unfold bind, attr, set_path_project_slug, set_path_version_slug, ret,
      defaulted_version, defaulted_lang, annotated, with_request.
    cbn. rewrite !Hobj, !Hreq. reflexivity.
  - by rewrite (bind_Raise _ _ _ _ _ Hres).
Qed.

(** What a successful call went through. *)
Lemma view_returns project subproject lang_slug version_slug filename w
    final_project l' v' f' :
  let current_project := most_relevant project subproject in
  let folded := folds w current_project lang_slug version_slug in
  result (_get_project_data_from_request project subproject lang_slug
            version_slug filename) w = Return (final_project, l', v', f') ->
  result (resolve_translation current_project
            (if folded then None else lang_slug)) w = Return final_project
  /\ l' = defaulted_lang w project final_project
            (if folded then None else lang_slug)
  /\ v' = defaulted_version w project final_project
            (if folded then None else version_slug)
  /\ f' = (if folded
           then os_path_join (str_of lang_slug) [str_of version_slug; filename]
           else filename).
Proof.
  intros current_project folded. unfold result at 1. rewrite view_run.
  fold current_project folded.
  destruct (result (resolve_translation current_project
                      (if folded then None else lang_slug)) w) as [fp|e];
    cbn; [|discriminate].
  intros [= -> <- <- <-]. done.
Qed.

Lemma view_preserves_objects project subproject lang_slug version_slug
    filename w :
  objects (world_after (_get_project_data_from_request project subproject
                          lang_slug version_slug filename) w) = objects w.
Proof.
  unfold world_after. rewrite view_run.
  destruct (folds w _ lang_slug version_slug),
    (result (resolve_translation _ _) w); reflexivity.
Qed.

(** The value of a call depends on the project instances only. *)
Lemma view_result_objects project subproject lang_slug version_slug filename
    w w' :
  objects w' = objects w ->
  result (_get_project_data_from_request project subproject lang_slug
            version_slug filename) w'
  = result (_get_project_data_from_request project subproject lang_slug
              version_slug filename) w.
Proof.
  intros Hobj. unfold result at 1 2. rewrite !view_run.
  unfold folds, defaulted_lang, defaulted_version. rewrite !Hobj.
  rewrite (resolve_translation_objects _ _ w w' Hobj).
  by destruct (result (resolve_translation _ _) w).
Qed.

Lemma urlconf_omits_true token conf :
  urlconf_omits token conf = true
  <-> exists u, conf = Some u /\ u <> "" /\ contains token u = false.
Proof.
  unfold urlconf_omits, truthy_str. split.
  - destruct conf as [u|]; [|done]. intros [Hu Hc]%andb_true_iff.
    exists u. split; [done|]. split.
    + intros ->. done.
    + by apply negb_true_iff.
  - intros (u & -> & Hu & Hc). rewrite Hc.
    apply String.eqb_neq in Hu. by rewrite Hu.
Qed.

(** *** The single-version fold *)

(** C1, as stated, fails twice. On the single-version handbook the request
    [en/latest/index.html] is folded, but the call answers the default
    version, not [None]. And when the final project is the single-version
    Spanish translation of the multi-version guide, nothing is folded: the
    guard looks at the project the URL reached before translations. *)
Lemma single_version_fold_counterexample :
  let view := _get_project_data_from_request in
  result (view 0 None (Some "en") (Some "latest") "index.html") example_world
    = Return (0, None, Some "latest", "en/latest/index.html")
  /\ single_version (objects example_world 2) = true
  /\ result (view 1 None (Some "es") (Some "latest") "index.html") example_world
     = Return (2, Some "es", Some "latest", "index.html").
Proof. repeat split; reflexivity. Qed.

(** C1, amended: when the current project (the subproject if there is one,
    else the project) is single-version and the request carries a non-empty
    [lang_slug] and a non-empty [version_slug], the single-version block
    yields [os.path.join(lang_slug, version_slug, filename)] with both slugs
    [None]; the call then succeeds with that project as final project and
    that filename, [version_slug] being its default version and [lang_slug]
    being [None] unless the project's [urlconf] is set and omits
    [$language], in which case it is the project's language. *)
Theorem single_version_fold w project subproject l v filename :
  let current_project := most_relevant project subproject in
  single_version (objects w current_project) = true ->
  l <> "" -> v <> "" ->
  result (fold_single_version current_project (Some l) (Some v) filename) w
    = Return (None, None, os_path_join l [v; filename])
  /\ result (_get_project_data_from_request project subproject (Some l)
               (Some v) filename) w
     = Return (current_project,
               (if urlconf_omits "$language" (urlconf (objects w project))
                then Some (language (objects w current_project)) else None),
               Some (get_default_version (objects w current_project)),
               os_path_join l [v; filename]).
Proof.
  intros current_project Hsingle Hl Hv.
  assert (Hfolds : folds w current_project (Some l) (Some v) = true).
  { unfold folds. by rewrite Hsingle, !truthy_str_Some. }
  unfold result. split.
  - by rewrite fold_single_version_eq, Hfolds.
  - rewrite view_run. fold current_project. rewrite Hfolds.
    unfold result, resolve_translation, bind, attr, ret. cbn.
    unfold defaulted_lang, defaulted_version. cbn. by rewrite Hsingle.
Qed.

Lemma single_version_fold_witness :
  result (_get_project_data_from_request 0 None (Some "en") (Some "latest")
            "index.html") example_world
    = Return (0, None, Some "latest", "en/latest/index.html")
  /\ result (_get_project_data_from_request 5 None (Some "en") (Some "latest")
               "index.html") example_world
     = Return (5, Some "en", Some "latest", "en/latest/index.html").
Proof.
  split.
  - apply (proj2 (single_version_fold example_world 0 None "en" "latest"
                    "index.html" eq_refl ltac:(discriminate)
                    ltac:(discriminate))).
  - apply (proj2 (single_version_fold example_world 5 None "en" "latest"
                    "index.html" eq_refl ltac:(discriminate)
                    ltac:(discriminate))).
Defined.

(** *** Version defaulting *)

Lemma folds_false_of_empty_version w current_project lang_slug version_slug :
  truthy_str version_slug = false ->
  folds w current_project lang_slug version_slug = false.
Proof. unfold folds. intros ->. by rewrite andb_false_r. Qed.

(** C2, as stated, fails in both halves. The guide has [urlconf = None] and
    several versions: an empty [version_slug] stays empty, although its
    default version is ["stable"]. The manual has a [urlconf] that names
    [$version] but is single-version: an empty [version_slug] becomes its
    default version. *)
Lemma version_defaulting_counterexample :
  let view := _get_project_data_from_request in
  urlconf (objects example_world 1) = None
  /\ get_default_version (objects example_world 1) = "stable"
  /\ result (view 1 None None None "index.html") example_world
     = Return (1, None, None, "index.html")
  /\ urlconf (objects example_world 3) = Some "$language/$version/$filename"
  /\ result (view 3 None None None "index.html") example_world
     = Return (3, None, Some "stable", "index.html")
  /\ result (view 3 None None (Some "") "index.html") example_world
     = Return (3, None, Some "stable", "index.html").
Proof. repeat split; reflexivity. Qed.

(** C2, amended: for a request with an empty [version_slug] whose translation
    lookup succeeds, the call returns the final project's default version as
    [version_slug] when the final project is single-version or the project's
    [urlconf] is set and omits [$version]; when the final project is not
    single-version and the [urlconf] is unset, empty or names [$version],
    the empty [version_slug] is returned as it came. *)
Theorem version_defaulting w project subproject lang_slug version_slug
    filename final_project :
  let current_project := most_relevant project subproject in
  truthy_str version_slug = false ->
  result (resolve_translation current_project lang_slug) w
    = Return final_project ->
  (single_version (objects w final_project) = true
   \/ urlconf_omits "$version" (urlconf (objects w project)) = true ->
   exists lang_slug',
     result (_get_project_data_from_request project subproject lang_slug
               version_slug filename) w
       = Return (final_project, lang_slug',
                 Some (get_default_version (objects w final_project)),
                 filename))
  /\ (single_version (objects w final_project) = false ->
      urlconf_omits "$version" (urlconf (objects w project)) = false ->
      exists lang_slug',
        result (_get_project_data_from_request project subproject lang_slug
                  version_slug filename) w
          = Return (final_project, lang_slug', version_slug, filename)).
Proof.
  intros current_project Hempty Hfinal.
  unfold result at 1 2. rewrite view_run. fold current_project.
  rewrite (folds_false_of_empty_version _ _ _ _ Hempty), Hfinal. cbn.
  unfold defaulted_version. rewrite Hempty. cbn.
  split.
  - intros Hcond. eexists.
    destruct Hcond as [-> | ->]; by rewrite ?orb_true_r.
  - intros -> ->. by eexists.
Qed.

Lemma version_defaulting_witness :
  (exists l,
     result (_get_project_data_from_request 4 None None None "index.html")
       example_world = Return (4, l, Some "latest", "index.html"))
  /\ (exists l,
        result (_get_project_data_from_request 1 None None None "index.html")
          example_world = Return (1, l, None, "index.html")).
Proof.
  split.
  - apply (proj1 (version_defaulting example_world 4 None None None
                    "index.html" 4 eq_refl eq_refl)).
    right. reflexivity.
  - apply (proj2 (version_defaulting example_world 1 None None None
                    "index.html" 1 eq_refl eq_refl)); reflexivity.
Defined.

(** *** Slugs on the success path *)

(** C3, as stated, fails: on the multi-version guide with [urlconf = None], a
    request without slugs succeeds and both slugs come back [None]. *)
Lemma slugs_unresolved_counterexample :
  result (_get_project_data_from_request 1 None None None "index.html")
    example_world = Return (1, None, None, "index.html").
Proof. reflexivity. Qed.

(** C3, amended: on every success path the returned [version_slug] is the
    non-empty one of the URL or the final project's default version, provided
    the URL gave a non-empty one, or the final project is single-version, or
    the project's [urlconf] is set and omits [$version]; the returned
    [lang_slug] is the non-empty one of the URL or the final project's
    language, provided the URL gave a non-empty one that the single-version
    block did not fold away, or the [urlconf] is set and omits [$language].
    In the remaining configurations the slug is returned empty:
    [version_slug] as it came, [lang_slug] as it came or [None] after a
    fold. *)
Theorem slugs_resolved_when_defaulting_applies w project subproject lang_slug
    version_slug filename final_project l' v' f' :
  let current_project := most_relevant project subproject in
  result (_get_project_data_from_request project subproject lang_slug
            version_slug filename) w = Return (final_project, l', v', f') ->
  (truthy_str version_slug = true
   \/ single_version (objects w final_project) = true
   \/ urlconf_omits "$version" (urlconf (objects w project)) = true ->
   (truthy_str version_slug = true /\ v' = version_slug)
   \/ v' = Some (get_default_version (objects w final_project)))
  /\ ((truthy_str lang_slug = true
       /\ (single_version (objects w current_project) = false
           \/ truthy_str version_slug = false))
      \/ urlconf_omits "$language" (urlconf (objects w project)) = true ->
      (truthy_str lang_slug = true /\ l' = lang_slug)
      \/ l' = Some (language (objects w final_project)))
  /\ (truthy_str version_slug = false ->
      single_version (objects w final_project) = false ->
      urlconf_omits "$version" (urlconf (objects w project)) = false ->
      v' = version_slug /\ truthy_str v' = false)
  /\ (truthy_str lang_slug = false
      \/ (single_version (objects w current_project) = true
          /\ truthy_str version_slug = true) ->
      urlconf_omits "$language" (urlconf (objects w project)) = false ->
      l' = (if truthy_str lang_slug then None else lang_slug)
      /\ truthy_str l' = false).
Proof.
  intros current_project Hret.
  apply view_returns in Hret as (Hfinal & -> & -> & _).
  fold current_project in Hfinal |- *.
  unfold defaulted_version, defaulted_lang, folds in *.
  destruct (single_version (objects w current_project)) eqn:Hcur,
    (truthy_str lang_slug) eqn:Hl, (truthy_str version_slug) eqn:Hv;
    cbn in *.
  all: try (injection Hfinal as <-; rewrite ?Hcur).
  all: rewrite ?Hl, ?Hv; cbn.
  all: split; [|split; [|split]].
  all: intros; repeat match goal with
         | H : _ \/ _ |- _ => destruct H
         | H : _ /\ _ |- _ => destruct H
         end; try discriminate.
  all: repeat match goal with
         | H : _ = true |- _ => rewrite H
         | H : _ = false |- _ => rewrite H
         end; rewrite ?orb_true_r; cbn; auto.
Qed.

Lemma slugs_resolved_when_defaulting_applies_witness :
  (Some "latest" = Some (get_default_version (objects example_world 4))
   /\ Some "en" = Some (language (objects example_world 4)))
  /\ ((None : option string) = None /\ truthy_str None = false).
Proof.
  split.
  - destruct (slugs_resolved_when_defaulting_applies example_world 4 None
                None None "index.html" 4 (Some "en") (Some "latest")
                "index.html" eq_refl) as (Hv & Hl & _ & _).
    split.
    + destruct Hv as [[Hv _] | Hv];
        [by right; right | discriminate | exact Hv].
    + destruct Hl as [[Hl _] | Hl]; [by right | discriminate | exact Hl].
  - destruct (slugs_resolved_when_defaulting_applies example_world 1 None
                None None "index.html" 1 None None "index.html" eq_refl)
      as (_ & _ & Hv & _).
    apply Hv; reflexivity.
Defined.

(** *** Translation resolution *)

Lemma filter_no_match {A} (P : A -> Prop) `{!forall x, Decision (P x)}
    (l : list A) :
  (forall x, x ∈ l -> ~ P x) -> filter P l = [].
Proof.
  intros Hnone. destruct (filter P l) as [|x rest] eqn:Hf; [done|].
  assert (Hx : x ∈ filter P l) by (rewrite Hf; left).
  apply list_elem_of_filter in Hx as [HP Hin]. by destruct (Hnone x Hin).
Qed.





(** *** Applying the view to what it returned *)

Lemma defaulted_version_idem w project final_project version_slug :
  defaulted_version w project final_project
    (defaulted_version w project final_project version_slug)
  = defaulted_version w project final_project version_slug.
Proof.
  unfold defaulted_version.
  destruct (truthy_str version_slug) eqn:Hv,
    (single_version (objects w final_project)
     || urlconf_omits "$version" (urlconf (objects w project))) eqn:Hc;
    cbn; rewrite ?Hv; cbn; try done.
  by case_match.
Qed.

Lemma defaulted_lang_idem w project final_project lang_slug :
  defaulted_lang w project final_project
    (defaulted_lang w project final_project lang_slug)
  = defaulted_lang w project final_project lang_slug.
Proof.
  unfold defaulted_lang.
  destruct (truthy_str lang_slug) eqn:Hl,
    (urlconf_omits "$language" (urlconf (objects w project))) eqn:Hc;
    cbn; rewrite ?Hl; cbn; try done.
  by case_match.
Qed.

Lemma resolve_translation_defaulted w project current_project final_project
    lang_slug :
  result (resolve_translation current_project lang_slug) w
    = Return final_project ->
  result (resolve_translation current_project
            (defaulted_lang w project final_project lang_slug)) w
    = Return final_project.
Proof.
  intros Hfinal. unfold defaulted_lang.
  destruct (truthy_str lang_slug) eqn:Hl; cbn; [done|].
  destruct (urlconf_omits _ _); [|done].
  rewrite resolve_translation_current in Hfinal by (by left).
  injection Hfinal as <-. apply resolve_translation_current. by right.
Qed.

(** C6, as stated, fails. On the single-version FAQ, whose [urlconf] names
    neither [$language] nor [$version], a request that carries only a
    filename gets both slugs filled in, and the view applied to that output
    folds them into the filename. The same happens on the single-version
    handbook ([urlconf = None]) for a request with a language and no
    version. *)
Lemma defaulting_not_idempotent :
  let faq := _get_project_data_from_request 5 None in
  let handbook := _get_project_data_from_request 0 None in
  result (faq None None "index.html") example_world
    = Return (5, Some "en", Some "latest", "index.html")
  /\ result (faq (Some "en") (Some "latest") "index.html")
       (world_after (faq None None "index.html") example_world)
     = Return (5, Some "en", Some "latest", "en/latest/index.html")
  /\ result (handbook (Some "en") None "index.html") example_world
     = Return (0, Some "en", Some "latest", "index.html")
  /\ result (handbook (Some "en") (Some "latest") "index.html")
       (world_after (handbook (Some "en") None "index.html") example_world)
     = Return (0, None, Some "latest", "en/latest/index.html").
Proof. repeat split; reflexivity. Qed.

(** C6, amended: applying the view to the slugs and filename it returned
    yields the same result whenever the current project is not single-version
    or the returned slugs are not both non-empty, that is whenever the
    single-version block does not fold the output again. *)
Theorem defaulting_idempotent_without_refold w project subproject lang_slug
    version_slug filename final_project l' v' f' :
  let current_project := most_relevant project subproject in
  let view := _get_project_data_from_request project subproject in
  result (view lang_slug version_slug filename) w
    = Return (final_project, l', v', f') ->
  single_version (objects w current_project) = false
  \/ truthy_str l' && truthy_str v' = false ->
  result (view l' v' f') (world_after (view lang_slug version_slug filename) w)
    = Return (final_project, l', v', f').
Proof.
  intros current_project view Hret Hnofold. subst view.
  rewrite (view_result_objects _ _ _ _ _ w) by apply view_preserves_objects.
  apply view_returns in Hret as (Hfinal & Hl' & Hv' & _).
  fold current_project in Hfinal.
  assert (Hfolds : folds w current_project l' v' = false).
  { unfold folds. destruct Hnofold as [-> | H]; [done|].
    by rewrite <- andb_assoc, H, andb_false_r. }
  unfold result at 1. rewrite view_run. fold current_project.
  rewrite Hfolds. subst l' v'.
  rewrite (resolve_translation_defaulted _ _ _ _ _ Hfinal). cbn.
  by rewrite defaulted_lang_idem, defaulted_version_idem.
Qed.

Lemma defaulting_idempotent_without_refold_witness :
  let view := _get_project_data_from_request 1 None in
  result (view (Some "es") (Some "latest") "index.html")
    (world_after (view (Some "es") None "index.html") example_world)
  = Return (2, Some "es", Some "latest", "index.html").
Proof.
  apply (defaulting_idempotent_without_refold example_world 1 None (Some "es")
           None "index.html" 2 (Some "es") (Some "latest") "index.html").
  - reflexivity.
  - left. reflexivity.
Defined.

(** *** What the view writes *)

(** C7: a call leaves every project instance as it was; on the request it
    leaves [path] and [resolver_match] alone and, when it returns, sets
    [path_project_slug] to the final project's slug and [path_version_slug]
    to the returned version slug; when it raises, the request is as before.
    Besides that it can only append the fold warning to the log. *)
Theorem view_frame w project subproject lang_slug version_slug filename :
  let view :=
    _get_project_data_from_request project subproject lang_slug version_slug
      filename in
  objects (world_after view w) = objects w
  /\ path (request (world_after view w)) = path (request w)
  /\ resolver_match (request (world_after view w))
     = resolver_match (request w)
  /\ (forall final_project l' v' f',
        result view w = Return (final_project, l', v', f') ->
        path_project_slug (request (world_after view w))
          = Some (slug (objects w final_project))
        /\ path_version_slug (request (world_after view w)) = Some v')
  /\ (forall e, result view w = Raise e ->
                request (world_after view w) = request w)
  /\ (log (world_after view w) = log w
      \/ log (world_after view w)
         = (log w ++ [fold_warning lang_slug version_slug filename])%list).
Proof.
  intros view. subst view. split; [apply view_preserves_objects|].
  unfold result, world_after. rewrite view_run.
  destruct (folds w _ lang_slug version_slug),
    (result (resolve_translation _ _) w); cbn;
    (split; [done | split; [done | split; [|split]]]); try done;
    try (by left); try (by right).
  all: by intros ? ? ? ? [= <- <- <- <-].
Qed.

Lemma view_frame_witness :
  let view :=
    _get_project_data_from_request 1 None (Some "es") None "index.html" in
  objects (world_after view example_world) = objects example_world
  /\ path_project_slug (request (world_after view example_world))
     = Some "guide-es"
  /\ path_version_slug (request (world_after view example_world))
     = Some (Some "latest").
Proof.
  destruct (view_frame example_world 1 None (Some "es") None "index.html")
    as (Hobj & _ & _ & Hret & _ & _).
  split; [exact Hobj|].
  apply (Hret 2 (Some "es") (Some "latest") "index.html"). reflexivity.
Defined.

End ProjectDataFacts.

(** ** Reconciling a subscription with Stripe *)

Section SubscriptionFacts.
Import Subscriptions.

Implicit Types (w : World) (rtd_subscription : Subscription)
  (stripe_subscription : StripeSubscription).

Lemma _get_plan_organizations stripe_price w :
  organizations (snd (_get_plan stripe_price w)) = organizations w.
Proof. unfold _get_plan. by repeat case_match. Qed.

Lemma update_plan_frame stripe_items rtd_subscription w :
  organization (fst (update_plan stripe_items rtd_subscription w))
    = organization rtd_subscription
  /\ subscription_pk (fst (update_plan stripe_items rtd_subscription w))
      = subscription_pk rtd_subscription
  /\ organizations (snd (update_plan stripe_items rtd_subscription w))
      = organizations w.
Proof.
  revert w. induction stripe_items as [|stripe_item rest IH]; intros w; cbn.
  - done.
  - pose proof (_get_plan_organizations (price stripe_item) w) as Hplan.
    destruct (_get_plan (price stripe_item) w) as [[p|] w']; cbn in *.
    + done.
    + destruct (IH w') as (Ho & Hpk & Horgs). by rewrite Ho, Hpk, Horgs.
Qed.

Lemma replace_stripe_id_frame stripe_subscription rtd_subscription w :
  organization (fst (replace_stripe_id stripe_subscription rtd_subscription w))
    = organization rtd_subscription
  /\ organizations
       (snd (replace_stripe_id stripe_subscription rtd_subscription w))
     = organizations w.
Proof. unfold replace_stripe_id. by case_match. Qed.

Lemma update_trial_end_date_organization stripe_subscription rtd_subscription :
  organization (update_trial_end_date stripe_subscription rtd_subscription)
    = organization rtd_subscription.
Proof. unfold update_trial_end_date. by case_match. Qed.

Lemma update_end_date_organization stripe_subscription rtd_subscription :
  organization (update_end_date stripe_subscription rtd_subscription)
    = organization rtd_subscription.
Proof. unfold update_end_date. by repeat case_match. Qed.

(** The organization the call works on, and the table it writes to, are
    those it was given: the steps before the last block touch neither. *)
Lemma update_from_stripe_unfold rtd_subscription stripe_subscription w :
  exists s w0,
    organization s = organization rtd_subscription
    /\ organizations w0 = organizations w
    /\ update_from_stripe rtd_subscription stripe_subscription w
       = (let '(s', w') :=
            ensure_organization_enabled stripe_subscription the_change_reason
              s w0 in
          (set_change_reason the_change_reason s',
           save_subscription (set_change_reason the_change_reason s') w')).
Proof.
  unfold update_from_stripe.
  destruct (replace_stripe_id_frame stripe_subscription
              (set_status (stripe_status stripe_subscription) rtd_subscription)
              w) as [Ho1 Hw1].
  destruct (replace_stripe_id _ _ w) as [s1 w1]. cbn in Ho1, Hw1.
  destruct (update_plan_frame (items stripe_subscription)
              (update_trial_end_date stripe_subscription s1) w1)
    as (Ho2 & _ & Hw2).
  destruct (update_plan _ _ w1) as [s2 w2]. cbn in Ho2, Hw2.
  exists (update_end_date stripe_subscription s2), w2.
  split; [|split; [congruence | reflexivity]].
  by rewrite update_end_date_organization, Ho2,
    update_trial_end_date_organization, Ho1.
Qed.

(** C8: when the stripe subscription is ["active"] and the organization of
    the subscription is disabled, the call sets [disabled] to [False] on the
    organization and saves it; when the status is not ["active"] or the
    organization is not disabled, the organization instance and the
    organizations table are left as they were. *)
Theorem reenable_disabled_organization rtd_subscription stripe_subscription w :
  let updated := update_from_stripe rtd_subscription stripe_subscription w in
  (stripe_status stripe_subscription = "active" ->
   disabled (organization rtd_subscription) = true ->
   disabled (organization (fst updated)) = false
   /\ organizations (snd updated)
        !! organization_pk (organization rtd_subscription)
      = Some (mkOrganizationRow
                (organization_slug (organization rtd_subscription)) false))
  /\ (stripe_status stripe_subscription <> "active"
      \/ disabled (organization rtd_subscription) = false ->
      organization (fst updated) = organization rtd_subscription
      /\ organizations (snd updated) = organizations w).
Proof.
  intros updated. subst updated.
  destruct (update_from_stripe_unfold rtd_subscription stripe_subscription w)
    as (s & w0 & Ho & Hw & ->).
  unfold ensure_organization_enabled. rewrite Ho. split.
  - intros Hactive Hdisabled.
    rewrite bool_decide_eq_true_2, Hdisabled by done. cbn.
    split; [done|]. by rewrite lookup_insert_eq.
  - intros Hother.
    assert (Hguard : bool_decide (stripe_status stripe_subscription = "active")
                     && disabled (organization rtd_subscription) = false).
    { destruct Hother as [Hne | ->]; [|by rewrite andb_false_r].
      by rewrite bool_decide_eq_false_2. }
    rewrite Hguard. cbn. split; congruence.
Qed.

Lemma reenable_disabled_organization_witness :
  let updated :=
    update_from_stripe example_subscription example_stripe_subscription
      example_billing_world in
  disabled (organization (fst updated)) = false
  /\ organizations (snd updated) !! 7%Z = Some (mkOrganizationRow "org" false).
Proof.
  apply (proj1 (reenable_disabled_organization example_subscription
                  example_stripe_subscription example_billing_world));
    reflexivity.
Defined.

(** The fixture of the test ends as the test asserts: the subscription is
    active with the new dates, and the organization is enabled. *)
Example reenabled_organization_on_subscription_updated_event :
  let updated :=
    update_from_stripe example_subscription example_stripe_subscription
      example_billing_world in
  status (fst updated) = "active"
  /\ trial_end_date (fst updated) = Some 1702592000%Z
  /\ end_date (fst updated) = Some 1702592000%Z
  /\ disabled (organization (fst updated)) = false.
Proof. repeat split; reflexivity. Qed.

End SubscriptionFacts.

(** ** More on the 404 handler *)

Section Handler404More.
Import Proxito404.

Implicit Types (request : Request) (exception : option Exception).

(** X1: the status 200 that [render] gives never leaves the handler: unless
    a [ContextualizedHttp404] carries another status, the response has status
    404, on the fast path and on the rendered one. *)
Theorem handler_status_404 request template_name exception :
  (forall t s c, exception = Some (ContextualizedHttp404 t s c) -> s = 404%Z) ->
  response_status (proxito_404_page_handler request template_name exception)
    = 404%Z.
Proof.
  intros Hstatus.
  destruct (not_from_404_handler request) eqn:Hguard.
  - unfold proxito_404_page_handler. by rewrite Hguard.
  - rewrite handler_unfold by done. cbn.
    destruct exception as [[|t s c]|]; try done. by apply (Hstatus t s c).
Qed.

Lemma handler_status_404_witness :
  response_status
    (proxito_404_page_handler request_on_404_route default_template_name
       contextualized_example) = 404%Z.
Proof.
  apply handler_status_404. intros t s c [= _ <- _]. reflexivity.
Defined.

(** X2: the template receives the context of the exception as it is: in a
    rendered response every key other than [path_not_found] has the value
    [get_context()] gave it, and no other key appears. *)
Theorem handler_context_passthrough request template_name exception ctx k :
  rendered_context (proxito_404_page_handler request template_name exception)
    = Some ctx ->
  k <> "path_not_found" ->
  ctx !! k = exception_context exception !! k.
Proof.
  intros Hctx Hk.
  destruct (not_from_404_handler request) eqn:Hguard.
  - unfold proxito_404_page_handler in Hctx. rewrite Hguard in Hctx.
    discriminate.
  - rewrite handler_unfold in Hctx by done. cbn in Hctx.
    injection Hctx as <-. by rewrite lookup_insert_ne.
Qed.

Lemma handler_context_passthrough_witness :
  exists ctx,
    rendered_context
      (proxito_404_page_handler request_on_404_route default_template_name
         contextualized_example_with_project) = Some ctx
    /\ ctx !! "project_slug" = Some (PyStr "guide").
Proof.
  eexists. split.
  - rewrite handler_unfold by reflexivity. reflexivity.
  - erewrite (handler_context_passthrough request_on_404_route
                default_template_name contextualized_example_with_project).
    + reflexivity.
    + rewrite handler_unfold by reflexivity. reflexivity.
    + discriminate.
Defined.

(** X3: the [template_name] argument is used only when a response is
    rendered for an exception that is not a [ContextualizedHttp404]: on the
    fast path, and for a contextualized exception, the response is the same
    for every [template_name]. *)
Theorem handler_template_name_unused request t1 t2 exception :
  not_from_404_handler request = true \/ is_contextualized exception = true ->
  proxito_404_page_handler request t1 exception
  = proxito_404_page_handler request t2 exception.
Proof.
  intros H. destruct (not_from_404_handler request) eqn:Hguard.
  - unfold proxito_404_page_handler. by rewrite Hguard.
  - destruct H as [|H]; [done|]. rewrite !handler_unfold by done.
    by destruct exception as [[|t s c]|].
Qed.

Lemma handler_template_name_unused_witness :
  proxito_404_page_handler request_on_404_route "errors/404/base.html"
    contextualized_example
  = proxito_404_page_handler request_on_404_route "other.html"
      contextualized_example.
Proof.
  apply handler_template_name_unused. right. reflexivity.
Defined.

End Handler404More.

(** ** More on resolving the project of a request *)

Section ProjectDataMore.
Import ProjectData.

Implicit Types (w : World) (project current_project final_project : ProjectRef)
  (subproject : option ProjectRef) (lang_slug version_slug : option string)
  (filename : string).

Lemma folds_false_iff w current_project lang_slug version_slug :
  folds w current_project lang_slug version_slug = false
  <-> single_version (objects w current_project) = false
      \/ truthy_str lang_slug = false \/ truthy_str version_slug = false.
Proof.
  unfold folds.
  destruct (single_version _), (truthy_str lang_slug),
    (truthy_str version_slug); cbn; intuition congruence.
Qed.

(** X4: the view returns, with the current project (the subproject when
    there is one, else the project) as final project, whenever no translation
    has to be looked up: [lang_slug] is empty, or is the current project's own
    language, or the current project is single-version and the URL has both
    slugs. *)
Theorem view_returns_current_project w project subproject lang_slug
    version_slug filename :
  let current_project := most_relevant project subproject in
  truthy_str lang_slug = false
  \/ lang_slug = Some (language (objects w current_project))
  \/ (single_version (objects w current_project) = true
      /\ truthy_str lang_slug = true /\ truthy_str version_slug = true) ->
  exists l' v' f',
    result (_get_project_data_from_request project subproject lang_slug
              version_slug filename) w
    = Return (current_project, l', v', f').
Proof.
  intros current_project H. unfold result. rewrite view_run.
  fold current_project.
  destruct (folds w current_project lang_slug version_slug) eqn:Hfolds.
  - rewrite resolve_translation_current by (by left). cbn. eauto.
  - rewrite resolve_translation_current; [cbn; eauto|].
    destruct H as [H | [H | (Hs & Hl & Hv)]]; [by left | by right |].
    unfold folds in Hfolds. by rewrite Hs, Hl, Hv in Hfolds.
Qed.

Lemma view_returns_current_project_witness :
  exists l' v' f',
    result (_get_project_data_from_request 4 (Some 0) (Some "de")
              (Some "v1") "index.html") example_world
    = Return (0, l', v', f').
Proof.
  apply (view_returns_current_project example_world 4 (Some 0) (Some "de")
           (Some "v1") "index.html").
  right. right. repeat split; reflexivity.
Defined.

(** X5: when the single-version block does not fire and [lang_slug] is
    non-empty, is not the current project's language and is the language of
    none of its translations, the view raises [Http404] and leaves the world,
    the request included, as it was. *)
Theorem view_raises_not_found w project subproject l version_slug filename :
  let current_project := most_relevant project subproject in
  single_version (objects w current_project) = false
  \/ truthy_str version_slug = false ->
  l <> "" ->
  l <> language (objects w current_project) ->
  (forall t, t ∈ translations (objects w current_project) ->
             language (objects w t) <> l) ->
  _get_project_data_from_request project subproject (Some l) version_slug
    filename w
  = (Raise (Http404 "No Project matches the given query."), w).
Proof.
  intros current_project Hnofold Hl Hown Hnone. rewrite view_run.
  fold current_project.
  assert (Hfolds : folds w current_project (Some l) version_slug = false).
  { apply folds_false_iff. destruct Hnofold; auto. }
  rewrite Hfolds, resolve_translation_lookup by done.
  unfold result, get_object_or_404, raise.
  by rewrite filter_no_match by (intros t Ht; by apply Hnone).
Qed.

Lemma view_raises_not_found_witness :
  _get_project_data_from_request 1 None (Some "de") (Some "latest")
    "index.html" example_world
  = (Raise (Http404 "No Project matches the given query."), example_world).
Proof.
  apply (view_raises_not_found example_world 1 None "de" (Some "latest")
           "index.html").
  - left. reflexivity.
  - discriminate.
  - discriminate.
  - cbn. intros t Ht. apply list_elem_of_singleton in Ht as ->. discriminate.
Defined.

(** X6: when two different translations of the current project have the
    language of the URL, the lookup is ambiguous and the view raises
    [MultipleObjectsReturned], not [Http404]. *)
Theorem view_raises_multiple_objects w project subproject l version_slug
    filename t1 t2 :
  let current_project := most_relevant project subproject in
  single_version (objects w current_project) = false
  \/ truthy_str version_slug = false ->
  l <> "" ->
  l <> language (objects w current_project) ->
  t1 ∈ translations (objects w current_project) ->
  t2 ∈ translations (objects w current_project) ->
  t1 <> t2 ->
  language (objects w t1) = l ->
  language (objects w t2) = l ->
  result (_get_project_data_from_request project subproject (Some l)
            version_slug filename) w
  = Raise MultipleObjectsReturned.
Proof.
  intros current_project Hnofold Hl Hown Hin1 Hin2 Hne Hl1 Hl2.
  unfold result. rewrite view_run. fold current_project.
  assert (Hfolds : folds w current_project (Some l) version_slug = false).
  { apply folds_false_iff. destruct Hnofold; auto. }
  rewrite Hfolds, resolve_translation_lookup by done.
  unfold result, get_object_or_404, raise, ret.
  assert (H1 : t1 ∈ filter (fun r => language (objects w r) = l)
                 (translations (objects w current_project)))
    by (by apply list_elem_of_filter).
  assert (H2 : t2 ∈ filter (fun r => language (objects w r) = l)
                 (translations (objects w current_project)))
    by (by apply list_elem_of_filter).
  destruct (filter _ _) as [|a [|b rest]]; cbn.
  - by apply elem_of_nil in H1.
  - apply list_elem_of_singleton in H1, H2. congruence.
  - reflexivity.
Qed.

Lemma view_raises_multiple_objects_witness :
  result (_get_project_data_from_request 0 None (Some "de") None "index.html")
    ambiguous_world
  = Raise MultipleObjectsReturned.
Proof.
  apply (view_raises_multiple_objects ambiguous_world 0 None "de" None
           "index.html" 1 2).
  - right. reflexivity.
  - discriminate.
  - discriminate.
  - cbn. left.
  - cbn. right. left.
  - discriminate.
  - reflexivity.
  - reflexivity.
Defined.


Lemma resolve_translation_returns w current_project lang_slug final_project :
  result (resolve_translation current_project lang_slug) w
    = Return final_project ->
  final_project = current_project
  \/ (final_project ∈ translations (objects w current_project)
      /\ lang_slug = Some (language (objects w final_project))
      /\ language (objects w final_project)
         <> language (objects w current_project)).
Proof.
  unfold result, resolve_translation, get_object_or_404, bind, attr, ret,
    raise. cbn.
  destruct (negb (truthy_str lang_slug)
            || bool_decide
                 (lang_slug = Some (language (objects w current_project))))
    eqn:Hcur; cbn.
  - intros [= <-]. by left.
  - apply orb_false_iff in Hcur as [Hl Hown].
    apply bool_decide_eq_false in Hown.
    destruct lang_slug as [l|]; [|done]. cbn.
    destruct (filter _ _) as [|a [|b rest]] eqn:Hf; cbn; try done.
    intros [= <-]. right.
    assert (Ha : a ∈ filter (fun r => language (objects w r) = l)
                   (translations (objects w current_project)))
      by (rewrite Hf; left).
    apply list_elem_of_filter in Ha as [Hlang Hin].
    split; [done|]. split; [by rewrite Hlang|]. congruence.
Qed.

(** X7: the final project of a successful call is the current project or
    one of its translations; in the second case [lang_slug] is that
    translation's language, it differs from the current project's, and the
    single-version block did not fire. *)
Theorem view_final_project w project subproject lang_slug version_slug
    filename final_project l' v' f' :
  let current_project := most_relevant project subproject in
  result (_get_project_data_from_request project subproject lang_slug
            version_slug filename) w = Return (final_project, l', v', f') ->
  final_project = current_project
  \/ (final_project ∈ translations (objects w current_project)
      /\ lang_slug = Some (language (objects w final_project))
      /\ language (objects w final_project)
         <> language (objects w current_project)
      /\ f' = filename).
Proof.
  intros current_project Hret.
  apply view_returns in Hret as (Hfinal & _ & _ & Hf).
  fold current_project in Hfinal, Hf.
  destruct (folds w current_project lang_slug version_slug).
  - left. rewrite resolve_translation_current in Hfinal by (by left).
    by injection Hfinal.
  - apply resolve_translation_returns in Hfinal as [?|(? & ? & ?)]; auto.
Qed.

Lemma view_final_project_witness :
  2 = 1
  \/ (2 ∈ translations (objects example_world 1)
      /\ Some "es" = Some (language (objects example_world 2))
      /\ language (objects example_world 2)
         <> language (objects example_world 1)
      /\ "index.html" = "index.html").
Proof.
  apply (view_final_project example_world 1 None (Some "es") None "index.html"
           2 (Some "es") (Some "latest") "index.html").
  reflexivity.
Defined.

(** X8: when the single-version block does not fire (the current project
    has versions, or one of the slugs is empty), a successful call returns
    the filename as it came, and every non-empty slug as it came. *)
Theorem view_passes_through w project subproject lang_slug version_slug
    filename final_project l' v' f' :
  let current_project := most_relevant project subproject in
  single_version (objects w current_project) = false
  \/ truthy_str lang_slug = false \/ truthy_str version_slug = false ->
  result (_get_project_data_from_request project subproject lang_slug
            version_slug filename) w = Return (final_project, l', v', f') ->
  f' = filename
  /\ (truthy_str lang_slug = true -> l' = lang_slug)
  /\ (truthy_str version_slug = true -> v' = version_slug).
Proof.
  intros current_project Hnofold Hret.
  apply view_returns in Hret as (_ & -> & -> & ->).
  fold current_project.
  rewrite (proj2 (folds_false_iff w current_project lang_slug version_slug)
             Hnofold).
  unfold defaulted_lang, defaulted_version.
  split; [done|]. split; by intros ->.
Qed.

Lemma view_passes_through_witness :
  "index.html" = "index.html"
  /\ (truthy_str (Some "es") = true -> Some "es" = Some "es")
  /\ (truthy_str (Some "v1") = true -> Some "v1" = Some "v1").
Proof.
  apply (view_passes_through example_world 1 None (Some "es") (Some "v1")
           "index.html" 2 (Some "es") (Some "v1") "index.html").
  - left. reflexivity.
  - reflexivity.
Defined.

(** X9: under a subproject the base project matters through its [urlconf]
    only: two base projects with the same [urlconf] give the same result and
    the same world. *)
Theorem view_base_project_urlconf_only w project1 project2 s lang_slug
    version_slug filename :
  urlconf (objects w project1) = urlconf (objects w project2) ->
  _get_project_data_from_request project1 (Some s) lang_slug version_slug
    filename w
  = _get_project_data_from_request project2 (Some s) lang_slug version_slug
      filename w.
Proof.
  intros Hconf. rewrite !view_run. cbn [most_relevant].
  unfold defaulted_lang, defaulted_version. by rewrite Hconf.
Qed.

Lemma view_base_project_urlconf_only_witness :
  _get_project_data_from_request 0 (Some 1) (Some "es") None "index.html"
    example_world
  = _get_project_data_from_request 2 (Some 1) (Some "es") None "index.html"
      example_world.
Proof.
  apply view_base_project_urlconf_only. reflexivity.
Defined.

Lemma os_path_join_absolute_last (l v f : string) :
  startswith sep f = true -> os_path_join l [v; f] = f.
Proof.
  intros Hf. unfold os_path_join. cbn [fold_left].
  unfold join_step at 1. by rewrite Hf.
Qed.

(** X10: the fold loses the slugs when the filename starts with the
    separator: on a single-version current project with both slugs in the
    URL, the returned filename is then the filename as it came, since
    [os.path.join] restarts at an absolute component. *)
Theorem fold_absolute_filename w project subproject l v filename :
  let current_project := most_relevant project subproject in
  single_version (objects w current_project) = true ->
  l <> "" -> v <> "" ->
  startswith sep filename = true ->
  exists l' v',
    result (_get_project_data_from_request project subproject (Some l)
              (Some v) filename) w
    = Return (current_project, l', v', filename).
Proof.
  intros current_project Hsingle Hl Hv Habs.
  unfold result. rewrite view_run. fold current_project.
  assert (Hfolds : folds w current_project (Some l) (Some v) = true).
  { unfold folds. by rewrite Hsingle, !truthy_str_Some. }
  rewrite Hfolds, resolve_translation_current by (by left).
  change (str_of (Some l)) with l. change (str_of (Some v)) with v.
  rewrite os_path_join_absolute_last by done. cbn. eauto.
Qed.

Lemma fold_absolute_filename_witness :
  exists l' v',
    result (_get_project_data_from_request 0 None (Some "en") (Some "latest")
              "/index.html") example_world
    = Return (0, l', v', "/index.html").
Proof.
  apply (fold_absolute_filename example_world 0 None "en" "latest"
           "/index.html"); [reflexivity | discriminate | discriminate
                           | reflexivity].
Defined.

(** X11: on a single-version current project, when neither slug ends with
    the separator and neither the version nor the filename starts with it,
    the returned filename is [lang/version/filename], written out. *)
Theorem fold_writes_lang_version_filename w project subproject l v filename :
  let current_project := most_relevant project subproject in
  single_version (objects w current_project) = true ->
  l <> "" -> v <> "" ->
  endswith sep l = false -> endswith sep v = false ->
  startswith sep v = false -> startswith sep filename = false ->
  exists l' v',
    result (_get_project_data_from_request project subproject (Some l)
              (Some v) filename) w
    = Return (current_project, l', v', l ++ "/" ++ v ++ "/" ++ filename).
Proof.
  intros current_project Hsingle Hl Hv Hel Hev Hsv Hsf.
  unfold result. rewrite view_run. fold current_project.
  assert (Hfolds : folds w current_project (Some l) (Some v) = true).
  { unfold folds. by rewrite Hsingle, !truthy_str_Some. }
  rewrite Hfolds, resolve_translation_current by (by left).
  change (str_of (Some l)) with l. change (str_of (Some v)) with v.
  rewrite os_path_join_clean by done. cbn. eauto.
Qed.

Lemma fold_writes_lang_version_filename_witness :
  exists l' v',
    result (_get_project_data_from_request 0 None (Some "en") (Some "latest")
              "api/index.html") example_world
    = Return (0, l', v', "en/latest/api/index.html").
Proof.
  apply (fold_writes_lang_version_filename example_world 0 None "en" "latest"
           "api/index.html");
    first [reflexivity | discriminate].
Defined.

(** X12: both defaults fire together: for a URL without slugs on a project
    whose [urlconf] is set and names neither [$language] nor [$version], the
    view returns the current project with its language and its default
    version, and records that project and version on the request. *)
Theorem view_defaults_both w project subproject lang_slug version_slug
    filename :
  let current_project := most_relevant project subproject in
  let view :=
    _get_project_data_from_request project subproject lang_slug version_slug
      filename in
  truthy_str lang_slug = false ->
  truthy_str version_slug = false ->
  urlconf_omits "$language" (urlconf (objects w project)) = true ->
  urlconf_omits "$version" (urlconf (objects w project)) = true ->
  result view w
    = Return (current_project,
              Some (language (objects w current_project)),
              Some (get_default_version (objects w current_project)),
              filename)
  /\ path_project_slug (request (world_after view w))
     = Some (slug (objects w current_project))
  /\ path_version_slug (request (world_after view w))
     = Some (Some (get_default_version (objects w current_project))).
Proof.
  intros current_project view Hl Hv Hol Hov. subst view.
  unfold result, world_after. rewrite view_run. fold current_project.
  rewrite (folds_false_of_empty_version _ _ _ _ Hv).
  rewrite resolve_translation_current by (by left). cbn.
  unfold defaulted_lang, defaulted_version.
  by rewrite Hl, Hv, Hol, Hov, orb_true_r.
Qed.

Lemma view_defaults_both_witness :
  result (_get_project_data_from_request 4 None None (Some "") "index.html")
    example_world
  = Return (4, Some "en", Some "latest", "index.html").
Proof.
  apply (view_defaults_both example_world 4 None None (Some "") "index.html");
    reflexivity.
Defined.

End ProjectDataMore.

(** ** More on reconciling a subscription with Stripe *)

Section SubscriptionMore.
Import Subscriptions.

Implicit Types (w : World) (rtd_subscription : Subscription)
  (stripe_subscription : StripeSubscription) (stripe_items : list StripeItem).

(** *** The plan lookup *)

Lemma plan_candidates_plans w w' stripe_price :
  plans w' = plans w ->
  plan_candidates w' stripe_price = plan_candidates w stripe_price.
Proof. unfold plan_candidates. by intros ->. Qed.

Lemma selected_plan_plans w w' stripe_items :
  plans w' = plans w ->
  selected_plan w' stripe_items = selected_plan w stripe_items.
Proof.
  intros Hp. induction stripe_items as [|i rest IH]; [done|]. cbn.
  by rewrite (plan_candidates_plans _ _ _ Hp), IH.
Qed.

Lemma _get_plan_fst stripe_price w :
  fst (_get_plan stripe_price w)
  = match plan_candidates w stripe_price with
    | [p] => Some p
    | _ => None
    end.
Proof. unfold _get_plan. by repeat case_match. Qed.

Lemma _get_plan_tables stripe_price w :
  plans (snd (_get_plan stripe_price w)) = plans w
  /\ organizations (snd (_get_plan stripe_price w)) = organizations w
  /\ subscriptions (snd (_get_plan stripe_price w)) = subscriptions w.
Proof. unfold _get_plan. by repeat case_match. Qed.

(** The loop assigns the selected plan, or leaves the subscription alone; it
    writes to the log only. *)
Lemma update_plan_eq stripe_items rtd_subscription w :
  fst (update_plan stripe_items rtd_subscription w)
    = match selected_plan w stripe_items with
      | Some p => set_plan (Some p) rtd_subscription
      | None => rtd_subscription
      end
  /\ plans (snd (update_plan stripe_items rtd_subscription w)) = plans w
  /\ organizations (snd (update_plan stripe_items rtd_subscription w))
     = organizations w
  /\ subscriptions (snd (update_plan stripe_items rtd_subscription w))
     = subscriptions w.
Proof.
  revert w. induction stripe_items as [|i rest IH]; intros w; cbn.
  - done.
  - pose proof (_get_plan_fst (price i) w) as Hfst.
    pose proof (_get_plan_tables (price i) w) as (Hp & Ho & Hs).
    destruct (_get_plan (price i) w) as [[p|] w']; cbn in *.
    + destruct (plan_candidates w (price i)) as [|q [|? ?]]; try done.
      by injection Hfst as ->.
    + destruct (IH w') as (-> & -> & -> & ->).
      rewrite (selected_plan_plans _ _ _ Hp).
      by destruct (plan_candidates w (price i)) as [|q [|? ?]].
Qed.


(** *** The subscription the call returns, and the tables it leaves *)

Lemma update_from_stripe_fst rtd_subscription stripe_subscription w :
  fst (update_from_stripe rtd_subscription stripe_subscription w)
  = mkSubscription (subscription_pk rtd_subscription)
      (stripe_status stripe_subscription)
      (Some (stripe_subscription_id stripe_subscription))
      (match selected_plan w (items stripe_subscription) with
       | Some p => Some p
       | None => plan rtd_subscription
       end)
      (end_date (update_end_date stripe_subscription rtd_subscription))
      (match trial_end stripe_subscription with
       | Some d => Some d
       | None => trial_end_date rtd_subscription
       end)
      (if bool_decide (stripe_status stripe_subscription = "active")
          && disabled (organization rtd_subscription)
       then set_organization_change_reason the_change_reason
              (set_disabled false (organization rtd_subscription))
       else organization rtd_subscription)
      (Some the_change_reason).
Proof.
  unfold update_from_stripe.
  set (s1 := set_status _ rtd_subscription).
  assert (Hr : fst (replace_stripe_id stripe_subscription s1 w)
               = set_stripe_id
                   (Some (stripe_subscription_id stripe_subscription)) s1
               /\ plans (snd (replace_stripe_id stripe_subscription s1 w))
                  = plans w).
  { unfold replace_stripe_id. case_bool_decide as Hid; [done|].
    split; [|done]. cbn.
    destruct rtd_subscription; cbn in *. by rewrite Hid. }
  destruct (replace_stripe_id stripe_subscription s1 w) as [s2 w2].
  cbn in Hr. destruct Hr as [-> Hp2].
  pose proof (update_plan_eq (items stripe_subscription)
                (update_trial_end_date stripe_subscription
                   (set_stripe_id
                      (Some (stripe_subscription_id stripe_subscription)) s1))
                w2) as (Hs3 & _).
  destruct (update_plan _ _ w2) as [s3 w3]. cbn in Hs3. subst s3.
  rewrite (selected_plan_plans _ _ _ Hp2).
  unfold ensure_organization_enabled, update_end_date, update_trial_end_date.
  destruct rtd_subscription as [pk st sid pl ed ted org cr]. subst s1. cbn.
  destruct (selected_plan w (items stripe_subscription)),
    (trial_end stripe_subscription),
    (bool_decide (stripe_status stripe_subscription = "active")),
    (bool_decide (stripe_status stripe_subscription = "past_due")),
    (bool_decide (is_Some (current_period_end stripe_subscription))),
    (bool_decide (is_Some (current_period_start stripe_subscription)));
    cbn; destruct (disabled org); reflexivity.
Qed.

Lemma update_from_stripe_snd rtd_subscription stripe_subscription w :
  let updated := update_from_stripe rtd_subscription stripe_subscription w in
  plans (snd updated) = plans w
  /\ subscriptions (snd updated)
     = <[subscription_pk rtd_subscription := subscription_row (fst updated)]>
         (subscriptions w)
  /\ organizations (snd updated)
     = (if bool_decide (stripe_status stripe_subscription = "active")
           && disabled (organization rtd_subscription)
        then <[organization_pk (organization rtd_subscription) :=
                 mkOrganizationRow
                   (organization_slug (organization rtd_subscription)) false]>
               (organizations w)
        else organizations w).
Proof.
  intros updated.
  pose proof (update_from_stripe_fst rtd_subscription stripe_subscription w)
    as Hfst. fold updated in Hfst.
  assert (Hpk : subscription_pk (fst updated)
                = subscription_pk rtd_subscription) by (by rewrite Hfst).
  clear Hfst. subst updated. revert Hpk. unfold update_from_stripe.
  set (s1 := set_status _ rtd_subscription).
  assert (Hr : organization (fst (replace_stripe_id stripe_subscription s1 w))
               = organization rtd_subscription
               /\ plans (snd (replace_stripe_id stripe_subscription s1 w))
                  = plans w
               /\ organizations
                    (snd (replace_stripe_id stripe_subscription s1 w))
                  = organizations w
               /\ subscriptions
                    (snd (replace_stripe_id stripe_subscription s1 w))
                  = subscriptions w).
  { unfold replace_stripe_id. by case_match. }
  destruct (replace_stripe_id stripe_subscription s1 w) as [s2 w2].
  cbn in Hr. destruct Hr as (Ho2 & Hp2 & Hg2 & Hs2).
  pose proof (update_plan_eq (items stripe_subscription)
                (update_trial_end_date stripe_subscription s2) w2)
    as (Hs3 & Hp3 & Hg3 & Hb3).
  destruct (update_plan _ _ w2) as [s3 w3]. cbn in Hs3, Hp3, Hg3, Hb3.
  assert (Ho3 : organization (update_end_date stripe_subscription s3)
                = organization rtd_subscription).
  { rewrite update_end_date_organization, Hs3.
    transitivity (organization (update_trial_end_date stripe_subscription s2)).
    - by case_match.
    - by rewrite update_trial_end_date_organization. }
  unfold ensure_organization_enabled. rewrite Ho3.
  destruct (bool_decide (stripe_status stripe_subscription = "active")
            && disabled (organization rtd_subscription)); cbn; intros Hpk.
  - rewrite Hp3, Hp2, Hg3, Hg2, Hb3, Hs2. cbn in Hpk. by rewrite Hpk.
  - rewrite Hp3, Hp2, Hg3, Hg2, Hb3, Hs2. cbn in Hpk. by rewrite Hpk.
Qed.


(** X13: after the call the subscription carries the status and the id of
    the stripe subscription, whatever it held before, keeps its primary key
    and has the change reason set; its trial end date is the stripe one when
    there is one, and is kept otherwise. *)
Theorem update_from_stripe_syncs rtd_subscription stripe_subscription w :
  let updated := fst (update_from_stripe rtd_subscription stripe_subscription w) in
  status updated = stripe_status stripe_subscription
  /\ stripe_id updated = Some (stripe_subscription_id stripe_subscription)
  /\ subscription_pk updated = subscription_pk rtd_subscription
  /\ change_reason updated
     = Some "origin=stripe-subscription class=SubscriptionManager"
  /\ trial_end_date updated
     = match trial_end stripe_subscription with
       | Some d => Some d
       | None => trial_end_date rtd_subscription
       end.
Proof. cbn zeta. by rewrite update_from_stripe_fst. Qed.

(** X14: the call saves what it returns: the row of the subscription in the
    table is the row of the returned instance, and no other subscription row
    changes. *)
Theorem update_from_stripe_saves rtd_subscription stripe_subscription w :
  let updated := update_from_stripe rtd_subscription stripe_subscription w in
  subscriptions (snd updated) !! subscription_pk rtd_subscription
    = Some (subscription_row (fst updated))
  /\ (forall k, k <> subscription_pk rtd_subscription ->
                subscriptions (snd updated) !! k = subscriptions w !! k).
Proof.
  intros updated.
  destruct (update_from_stripe_snd rtd_subscription stripe_subscription w)
    as (_ & Hs & _).
  fold updated in Hs. rewrite Hs. split.
  - by rewrite lookup_insert_eq.
  - intros k Hk. by rewrite lookup_insert_ne.
Qed.

Lemma update_from_stripe_saves_witness :
  let updated :=
    update_from_stripe example_subscription example_stripe_subscription
      example_billing_world in
  subscriptions (snd updated) !! 3%Z
    = Some (mkSubscriptionRow "active" (Some "sub_9LtsU02uvjO6Ed") (Some 1%Z)
              (Some 1702592000%Z) (Some 1702592000%Z) 7)
  /\ subscriptions (snd updated) !! 4%Z = None.
Proof.
  destruct (update_from_stripe_saves example_subscription
              example_stripe_subscription example_billing_world)
    as [Hrow Hother].
  split.
  - exact Hrow.
  - rewrite (Hother 4%Z); [reflexivity | discriminate].
Defined.

(** X15: the end date follows the status: an ["active"] stripe subscription
    with a period end moves it to the period end, a ["past_due"] one with a
    period start moves it back to the period start, and in every other case
    (another status, or the date missing) it is kept. *)
Theorem update_from_stripe_end_date rtd_subscription stripe_subscription w :
  let updated := fst (update_from_stripe rtd_subscription stripe_subscription w) in
  (stripe_status stripe_subscription = "active" ->
   is_Some (current_period_end stripe_subscription) ->
   end_date updated = current_period_end stripe_subscription)
  /\ (stripe_status stripe_subscription = "past_due" ->
      is_Some (current_period_start stripe_subscription) ->
      end_date updated = current_period_start stripe_subscription)
  /\ ((stripe_status stripe_subscription <> "active"
       \/ current_period_end stripe_subscription = None) ->
      (stripe_status stripe_subscription <> "past_due"
       \/ current_period_start stripe_subscription = None) ->
      end_date updated = end_date rtd_subscription).
Proof.
  cbn zeta. rewrite update_from_stripe_fst. cbn. unfold update_end_date.
  split; [|split].
  - intros Hs He. rewrite !bool_decide_eq_true_2 by done. reflexivity.
  - intros Hs He.
    rewrite (bool_decide_eq_false_2 (stripe_status _ = "active"))
      by (rewrite Hs; discriminate).
    cbn [andb]. rewrite !bool_decide_eq_true_2 by done. reflexivity.
  - intros Ha Hp.
    assert (H1 : bool_decide (stripe_status stripe_subscription = "active")
                 && bool_decide
                      (is_Some (current_period_end stripe_subscription))
                 = false).
    { destruct Ha as [Ha | Ha].
      - by rewrite bool_decide_eq_false_2.
      - rewrite Ha, andb_comm. rewrite bool_decide_eq_false_2; [done|].
        by intros [? ?]. }
    assert (H2 : bool_decide (stripe_status stripe_subscription = "past_due")
                 && bool_decide
                      (is_Some (current_period_start stripe_subscription))
                 = false).
    { destruct Hp as [Hp | Hp].
      - by rewrite bool_decide_eq_false_2.
      - rewrite Hp, andb_comm. rewrite bool_decide_eq_false_2; [done|].
        by intros [? ?]. }
    by rewrite H1, H2.
Qed.

Lemma update_from_stripe_end_date_witness :
  end_date
    (fst (update_from_stripe example_subscription past_due_stripe_subscription
            example_billing_world)) = Some 1700000000%Z
  /\ end_date
       (fst (update_from_stripe example_subscription
               canceled_stripe_subscription example_billing_world)) = None
  /\ end_date
       (fst (update_from_stripe example_subscription
               example_stripe_subscription example_billing_world))
     = Some 1702592000%Z.
Proof.
  split; [|split].
  - apply (proj1 (proj2 (update_from_stripe_end_date example_subscription
                           past_due_stripe_subscription
                           example_billing_world)));
      [reflexivity | by eexists].
  - apply (proj2 (proj2 (update_from_stripe_end_date example_subscription
                           canceled_stripe_subscription
                           example_billing_world)));
      left; discriminate.
  - apply (proj1 (update_from_stripe_end_date example_subscription
                    example_stripe_subscription example_billing_world));
      [reflexivity | by eexists].
Defined.


(** *** Which plan is assigned *)

Lemma plan_candidates_singleton w stripe_price p :
  plan_candidates w stripe_price = [p] ->
  p ∈ plans w
  /\ plan_stripe_id p = price_id stripe_price
  /\ contains "custom" (plan_slug p) = false
  /\ icontains "Custom" (plan_name p) = false.
Proof.
  intros Hc.
  assert (Hin : p ∈ plan_candidates w stripe_price) by (rewrite Hc; left).
  unfold plan_candidates in Hin.
  apply list_elem_of_filter in Hin as [Hid Hin].
  apply list_elem_of_filter in Hin as [Hname Hin].
  by apply list_elem_of_filter in Hin as [Hslug Hin].
Qed.

Lemma selected_plan_Some w stripe_items p :
  selected_plan w stripe_items = Some p ->
  exists stripe_item,
    stripe_item ∈ stripe_items
    /\ plan_candidates w (price stripe_item) = [p].
Proof.
  induction stripe_items as [|i rest IH]; [done|]. cbn.
  destruct (plan_candidates w (price i)) as [|q [|? ?]] eqn:Hc.
  - intros (j & Hj & Hp)%IH. exists j. split; [by right | done].
  - intros [= ->]. exists i. split; [by left | done].
  - intros (j & Hj & Hp)%IH. exists j. split; [by right | done].
Qed.

(** X16: the plan of the returned subscription is the plan it had, or a
    plan of the plans table whose stripe id is the price id of one of the
    items; such a plan is never a custom one (its slug does not contain
    ["custom"], its name does not contain ["custom"] in any letter case). *)
Theorem update_from_stripe_plan rtd_subscription stripe_subscription w :
  let updated := fst (update_from_stripe rtd_subscription stripe_subscription w) in
  plan updated = plan rtd_subscription
  \/ exists p stripe_item,
       plan updated = Some p
       /\ stripe_item ∈ items stripe_subscription
       /\ p ∈ plans w
       /\ plan_stripe_id p = price_id (price stripe_item)
       /\ contains "custom" (plan_slug p) = false
       /\ icontains "Custom" (plan_name p) = false.
Proof.
  cbn zeta. rewrite update_from_stripe_fst. cbn.
  destruct (selected_plan w (items stripe_subscription)) as [p|] eqn:Hsel;
    [|by left].
  right. apply selected_plan_Some in Hsel as (i & Hi & Hc).
  apply plan_candidates_singleton in Hc as (Hin & Hid & Hslug & Hname).
  exists p, i. repeat split; assumption.
Qed.

Lemma selected_plan_first w (pre rest : list StripeItem) stripe_item p :
  (forall i, i ∈ pre -> fst (_get_plan (price i) w) = None) ->
  fst (_get_plan (price stripe_item) w) = Some p ->
  selected_plan w (pre ++ stripe_item :: rest)%list = Some p.
Proof.
  intros Hpre Hitem. induction pre as [|i pre IH]; cbn.
  - rewrite _get_plan_fst in Hitem.
    by destruct (plan_candidates w (price stripe_item)) as [|q [|? ?]].
  - pose proof (Hpre i ltac:(left)) as Hi. rewrite _get_plan_fst in Hi.
    rewrite IH by (intros j Hj; apply Hpre; by right).
    by destruct (plan_candidates w (price i)) as [|q [|? ?]].
Qed.

(** X17: the first item for which [_get_plan] finds a plan decides: when
    [_get_plan] answers [None] for the items before it, the returned
    subscription has the plan found for it, whatever the later items are. *)
Theorem update_from_stripe_first_plan rtd_subscription stripe_subscription w
    (pre rest : list StripeItem) stripe_item p :
  items stripe_subscription = (pre ++ stripe_item :: rest)%list ->
  (forall i, i ∈ pre -> fst (_get_plan (price i) w) = None) ->
  fst (_get_plan (price stripe_item) w) = Some p ->
  plan (fst (update_from_stripe rtd_subscription stripe_subscription w))
    = Some p.
Proof.
  intros Hitems Hpre Hitem. rewrite update_from_stripe_fst. cbn.
  by rewrite Hitems, (selected_plan_first _ _ _ _ _ Hpre Hitem).
Qed.

Lemma update_from_stripe_first_plan_witness :
  plan (fst (update_from_stripe example_subscription
               two_items_stripe_subscription example_billing_world))
    = Some (mkPlan 1 "trialing" "Trialing" "trialing").
Proof.
  apply (update_from_stripe_first_plan example_subscription
           two_items_stripe_subscription example_billing_world
           [mkStripeItem (mkStripePrice "unknown")] []
           (mkStripeItem (mkStripePrice "trialing"))).
  - reflexivity.
  - intros i Hi. apply list_elem_of_singleton in Hi as ->. reflexivity.
  - reflexivity.
Defined.

Lemma selected_plan_none w stripe_items :
  (forall i, i ∈ stripe_items -> fst (_get_plan (price i) w) = None) ->
  selected_plan w stripe_items = None.
Proof.
  induction stripe_items as [|i rest IH]; intros Hall; [done|]. cbn.
  pose proof (Hall i ltac:(left)) as Hi. rewrite _get_plan_fst in Hi.
  rewrite IH by (intros j Hj; apply Hall; by right).
  by destruct (plan_candidates w (price i)) as [|q [|? ?]].
Qed.

Lemma update_plan_logs_error stripe_items rtd_subscription w :
  selected_plan w stripe_items = None ->
  plan_not_found ∈ log (snd (update_plan stripe_items rtd_subscription w)).
Proof.
  revert w. induction stripe_items as [|i rest IH]; intros w Hsel; cbn.
  - apply elem_of_app. right. left.
  - cbn in Hsel.
    pose proof (_get_plan_fst (price i) w) as Hfst.
    pose proof (_get_plan_tables (price i) w) as (Hp & _).
    destruct (_get_plan (price i) w) as [[p|] w']; cbn in *.
    + by destruct (plan_candidates w (price i)) as [|q [|? ?]].
    + apply IH. rewrite (selected_plan_plans _ _ _ Hp).
      by destruct (plan_candidates w (price i)) as [|q [|? ?]].
Qed.


(** X18: when [_get_plan] finds no plan for any item (in particular when
    the stripe subscription has no item), the plan of the subscription is
    kept and the error ["Plan not found, skipping plan update."] is in the
    log. *)
Theorem update_from_stripe_no_plan rtd_subscription stripe_subscription w :
  let updated := update_from_stripe rtd_subscription stripe_subscription w in
  (forall i, i ∈ items stripe_subscription ->
             fst (_get_plan (price i) w) = None) ->
  plan (fst updated) = plan rtd_subscription
  /\ plan_not_found ∈ log (snd updated).
Proof.
  intros updated Hall.
  pose proof (selected_plan_none _ _ Hall) as Hsel. split.
  - subst updated. rewrite update_from_stripe_fst. cbn. by rewrite Hsel.
  - subst updated. unfold update_from_stripe.
    set (s1 := set_status _ rtd_subscription).
    assert (Hp : plans (snd (replace_stripe_id stripe_subscription s1 w))
                 = plans w)
      by (unfold replace_stripe_id; by case_match).
    destruct (replace_stripe_id stripe_subscription s1 w) as [s2 w2].
    cbn in Hp.
    pose proof (update_plan_logs_error (items stripe_subscription)
                  (update_trial_end_date stripe_subscription s2) w2) as Hlog.
    rewrite (selected_plan_plans _ _ _ Hp) in Hlog. specialize (Hlog Hsel).
    destruct (update_plan _ _ w2) as [s3 w3]. cbn in Hlog.
    unfold ensure_organization_enabled.
    destruct (bool_decide (stripe_status stripe_subscription = "active")
              && disabled _); cbn; [|done].
    apply elem_of_app. by left.
Qed.

Lemma update_from_stripe_no_plan_witness :
  let updated :=
    update_from_stripe example_subscription canceled_stripe_subscription
      example_billing_world in
  plan (fst updated) = None /\ plan_not_found ∈ log (snd updated).
Proof.
  apply (update_from_stripe_no_plan example_subscription
           canceled_stripe_subscription example_billing_world).
  intros i Hi. by apply elem_of_nil in Hi.
Defined.

(** X19: [_get_plan] fails quietly: it answers [None], and logs
    ["Plan lookup failed."], when two different plans that are not custom
    have the stripe id of the price, and when no plan that is not custom has
    it. *)
Theorem _get_plan_fails stripe_price w :
  ((exists q1 q2,
      q1 <> q2
      /\ q1 ∈ plan_candidates w stripe_price
      /\ q2 ∈ plan_candidates w stripe_price)
   \/ (forall q, q ∈ plans w ->
                 plan_stripe_id q = price_id stripe_price ->
                 contains "custom" (plan_slug q) = true
                 \/ icontains "Custom" (plan_name q) = true)) ->
  _get_plan stripe_price w
  = (None,
     emit (mkLog "info" "Plan lookup failed."
             [("stripe_price", PyStr (price_id stripe_price))]) w).
Proof.
  intros H. unfold _get_plan.
  destruct (plan_candidates w stripe_price) as [|p [|p' rest]] eqn:Hc;
    [done| |done].
  exfalso. destruct H as [(q1 & q2 & Hne & H1 & H2) | Hcustom].
  - apply list_elem_of_singleton in H1, H2. congruence.
  - apply plan_candidates_singleton in Hc as (Hin & Hid & Hslug & Hname).
    destruct (Hcustom p Hin Hid); congruence.
Qed.

Lemma _get_plan_fails_witness :
  fst (_get_plan (mkStripePrice "enterprise") custom_plans_world) = None
  /\ fst (_get_plan (mkStripePrice "basic") custom_plans_world) = None.
Proof.
  split.
  - rewrite (_get_plan_fails (mkStripePrice "enterprise") custom_plans_world);
      [reflexivity|].
    right. intros q Hq Hid. cbn in Hq.
    repeat (apply elem_of_cons in Hq as [-> | Hq]);
      try discriminate Hid; [by right | by apply elem_of_nil in Hq].
  - rewrite (_get_plan_fails (mkStripePrice "basic") custom_plans_world);
      [reflexivity|].
    left. exists (mkPlan 1 "basic" "Basic" "basic"),
      (mkPlan 2 "basic-2023" "Basic" "basic").
    assert (Hc : plan_candidates custom_plans_world (mkStripePrice "basic")
                 = [mkPlan 1 "basic" "Basic" "basic";
                    mkPlan 2 "basic-2023" "Basic" "basic"]) by reflexivity.
    rewrite Hc. split; [discriminate|]. split.
    + left.
    + right. left.
Defined.

(** X20: the call never changes the plans table, never changes the row of
    another organization, and never changes the primary key or the slug of
    the organization of the subscription. *)
Theorem update_from_stripe_frame rtd_subscription stripe_subscription w :
  let updated := update_from_stripe rtd_subscription stripe_subscription w in
  plans (snd updated) = plans w
  /\ (forall k, k <> organization_pk (organization rtd_subscription) ->
                organizations (snd updated) !! k = organizations w !! k)
  /\ organization_pk (organization (fst updated))
     = organization_pk (organization rtd_subscription)
  /\ organization_slug (organization (fst updated))
     = organization_slug (organization rtd_subscription).
Proof.
  intros updated.
  destruct (update_from_stripe_snd rtd_subscription stripe_subscription w)
    as (Hp & _ & Ho).
  fold updated in Hp, Ho. split; [done|]. split.
  - intros k Hk. rewrite Ho. case_match; [|done]. by rewrite lookup_insert_ne.
  - subst updated. rewrite update_from_stripe_fst. cbn. by case_match.
Qed.

Lemma update_from_stripe_frame_witness :
  organizations
    (snd (update_from_stripe example_subscription example_stripe_subscription
            example_billing_world)) !! 8%Z = None.
Proof.
  destruct (update_from_stripe_frame example_subscription
              example_stripe_subscription example_billing_world)
    as (_ & Hother & _).
  rewrite (Hother 8%Z); [reflexivity | discriminate].
Defined.

Lemma update_end_date_idem stripe_subscription rtd_subscription s' :
  end_date s' = end_date (update_end_date stripe_subscription rtd_subscription) ->
  end_date (update_end_date stripe_subscription s') = end_date s'.
Proof.
  unfold update_end_date. intros H.
  destruct (bool_decide (stripe_status stripe_subscription = "active")
            && bool_decide (is_Some (current_period_end stripe_subscription))),
    (bool_decide (stripe_status stripe_subscription = "past_due")
     && bool_decide (is_Some (current_period_start stripe_subscription)));
    cbn in *; congruence.
Qed.

(** X21: reconciling twice is reconciling once: a second call with the same
    stripe subscription, on the subscription and the database the first call
    left, returns the same subscription and leaves the three tables as they
    were (only the log grows). *)
Theorem update_from_stripe_idempotent rtd_subscription stripe_subscription w :
  let once := update_from_stripe rtd_subscription stripe_subscription w in
  let twice := update_from_stripe (fst once) stripe_subscription (snd once) in
  fst twice = fst once
  /\ plans (snd twice) = plans (snd once)
  /\ organizations (snd twice) = organizations (snd once)
  /\ subscriptions (snd twice) = subscriptions (snd once).
Proof.
  intros once twice.
  destruct (update_from_stripe_snd rtd_subscription stripe_subscription w)
    as (Hp1 & Hs1 & Ho1). fold once in Hp1, Hs1, Ho1.
  destruct (update_from_stripe_snd (fst once) stripe_subscription (snd once))
    as (Hp2 & Hs2 & Ho2). fold twice in Hp2, Hs2, Ho2.
  pose proof (update_from_stripe_fst rtd_subscription stripe_subscription w)
    as H1. fold once in H1.
  pose proof (update_from_stripe_fst (fst once) stripe_subscription (snd once))
    as H2. fold twice in H2.
  assert (Hdis :
    bool_decide (stripe_status stripe_subscription = "active")
    && disabled (organization (fst once)) = false).
  { rewrite H1. cbn.
    destruct (bool_decide (stripe_status stripe_subscription = "active"));
      [|done].
    by destruct (disabled (organization rtd_subscription)) eqn:Hd. }
  assert (Hsame : fst twice = fst once).
  { assert (Hed : end_date (update_end_date stripe_subscription (fst once))
                   = end_date (fst once)).
    { apply (update_end_date_idem stripe_subscription rtd_subscription).
      by rewrite H1. }
    rewrite H2, Hdis, Hed, (selected_plan_plans _ _ _ Hp1). clear H2 Hed Hdis.
    rewrite H1. cbn.
    by destruct (selected_plan w (items stripe_subscription)),
      (trial_end stripe_subscription). }
  split; [done|]. split; [done|]. split.
  - by rewrite Ho2, Hdis.
  - rewrite Hs2, Hsame, Hs1.
    assert (Hpk : subscription_pk (fst once)
                  = subscription_pk rtd_subscription) by (by rewrite H1).
    rewrite Hpk. apply insert_insert_eq.
Qed.

End SubscriptionMore.

(** ** Patching [os.path] in tests *)

Section FakePathsFacts.
Import FakePaths.

Implicit Types (os_path : gmap string (string -> PyVal)) (path : string)
  (check : string -> PyVal).

(** Inside the block the target answers through [patched_exists], which
    falls back on [os.path.exists]; every other attribute is as it was. *)
Lemma call_inside_fake_paths check target os_path original_exists
    original_target name path :
  os_path !! "exists" = Some original_exists ->
  os_path !! target = Some original_target ->
  call_inside (fake_paths check target os_path) os_path name path
  = if decide (target = name)
    then Some (patched_exists check original_exists path)
    else (fun f => f path) <$> os_path !! name.
Proof.
  intros Hex Htg. unfold call_inside, fake_paths, enter.
  rewrite Hex. cbn. rewrite Htg. rewrite lookup_insert.
  by case_decide.
Qed.

(** X22: inside [with fake_paths_lookup(path_dict)], [os.path.exists(path)]
    answers the value the dictionary holds for the path, and the real
    [os.path.exists] when the path is not a key (or is mapped to [None]). *)
Theorem fake_paths_lookup_answers path_dict os_path original_exists path :
  os_path !! "exists" = Some original_exists ->
  call_inside (fake_paths_lookup path_dict os_path) os_path "exists" path
  = Some (match path_dict !! path with
          | Some PyNone | None => original_exists path
          | Some v => v
          end).
Proof.
  intros Hex. unfold fake_paths_lookup.
  rewrite (call_inside_fake_paths _ _ _ _ _ _ _ Hex Hex).
  rewrite decide_True by done. unfold patched_exists.
  by destruct (path_dict !! path) as [[]|].
Qed.

Lemma fake_paths_lookup_answers_witness :
  call_inside (fake_paths_lookup example_path_dict example_os_path)
    example_os_path "exists" "no.txt" = Some (PyBool false)
  /\ call_inside (fake_paths_lookup example_path_dict example_os_path)
       example_os_path "exists" "/etc/hosts" = Some (PyBool true).
Proof.
  split.
  - rewrite (fake_paths_lookup_answers example_path_dict example_os_path
               example_exists "no.txt");
      reflexivity.
  - rewrite (fake_paths_lookup_answers example_path_dict example_os_path
               example_exists
               "/etc/hosts"); reflexivity.
Defined.

(** X23: inside [with fake_paths_by_regex(pattern, target, exists)], the
    target answers [exists] for the paths the pattern matches; for the others
    it answers the real [os.path.exists], also when the target is another
    attribute such as [lexists]. *)
Theorem fake_paths_by_regex_answers search pattern target exists_ os_path
    original_exists original_target path :
  os_path !! "exists" = Some original_exists ->
  os_path !! target = Some original_target ->
  exists_ <> PyNone ->
  call_inside (fake_paths_by_regex search pattern target exists_ os_path)
    os_path target path
  = Some (if search pattern path then exists_ else original_exists path).
Proof.
  intros Hex Htg Hnone. unfold fake_paths_by_regex.
  rewrite (call_inside_fake_paths _ _ _ _ _ _ _ Hex Htg).
  rewrite decide_True by done. unfold patched_exists.
  destruct (search pattern path); [|done]. by destruct exists_.
Qed.

Lemma fake_paths_by_regex_answers_witness :
  call_inside
    (fake_paths_by_regex example_search "\.pdf$" "lexists" (PyBool false)
       example_os_path) example_os_path "lexists" "my.pdf"
  = Some (PyBool false).
Proof.
  rewrite (fake_paths_by_regex_answers example_search "\.pdf$" "lexists"
             (PyBool false) example_os_path
             example_exists
             example_exists "my.pdf");
    [reflexivity | reflexivity | reflexivity | discriminate].
Defined.

(** X24: a patch of one attribute of [os.path] leaves every other attribute
    answering as before; with [target="lexists"], [os.path.exists] is not
    faked. *)
Theorem fake_paths_other_attributes check target os_path original_exists
    original_target name path :
  os_path !! "exists" = Some original_exists ->
  os_path !! target = Some original_target ->
  name <> target ->
  call_inside (fake_paths check target os_path) os_path name path
  = (fun f => f path) <$> os_path !! name.
Proof.
  intros Hex Htg Hne.
  rewrite (call_inside_fake_paths _ _ _ _ _ _ _ Hex Htg).
  by rewrite decide_False by congruence.
Qed.

Lemma fake_paths_other_attributes_witness :
  call_inside
    (fake_paths_by_regex example_search "\.pdf$" "lexists" (PyBool true)
       example_os_path) example_os_path "exists" "my.pdf"
  = Some (PyBool false).
Proof.
  unfold fake_paths_by_regex.
  rewrite (fake_paths_other_attributes _ "lexists" example_os_path
             example_exists
             example_exists
             "exists" "my.pdf");
    [reflexivity | reflexivity | reflexivity | discriminate].
Defined.

(** X25: a lookup patch made and entered inside the block of another one
    answers as one patch with the union of the dictionaries, the inner one
    winning, provided the inner dictionary maps no path to [None]. *)
Theorem nested_lookups_compose (d1 d2 : gmap string PyVal) os_path
    original_exists p1 inside path :
  os_path !! "exists" = Some original_exists ->
  (forall k, d2 !! k <> Some PyNone) ->
  fake_paths_lookup d1 os_path = Ok p1 ->
  enter p1 os_path = Ok inside ->
  call_inside (fake_paths_lookup d2 inside) inside "exists" path
  = call_inside (fake_paths_lookup (d2 ∪ d1) os_path) os_path "exists" path.
Proof.
  intros Hex Hd2 Hp1 Henter.
  unfold fake_paths_lookup, fake_paths in Hp1. rewrite Hex in Hp1.
  injection Hp1 as <-. unfold enter in Henter. cbn in Henter.
  rewrite Hex in Henter. injection Henter as <-.
  unfold fake_paths_lookup.
  erewrite (call_inside_fake_paths _ "exists" (<["exists" := _]> os_path))
    by apply lookup_insert_eq.
  rewrite (call_inside_fake_paths _ _ _ _ _ _ _ Hex Hex).
  rewrite !decide_True by done.
  f_equal. unfold patched_exists. cbn beta. rewrite lookup_union.
  specialize (Hd2 path).
  destruct (d2 !! path) as [v2|] eqn:H2.
  - destruct (d1 !! path); cbn; destruct v2; done.
  - by destruct (d1 !! path) as [[]|].
Qed.

Lemma nested_lookups_compose_witness :
  call_inside
    (fake_paths_lookup (<["my.txt" := PyBool false]> ∅)
       example_os_path_inside) example_os_path_inside "exists" "no.txt"
  = call_inside
      (fake_paths_lookup (<["my.txt" := PyBool false]> ∅ ∪ example_path_dict)
         example_os_path) example_os_path "exists" "no.txt".
Proof.
  apply (nested_lookups_compose example_path_dict
           (<["my.txt" := PyBool false]> ∅) example_os_path
           example_exists example_outer_patcher example_os_path_inside
           "no.txt").
  - reflexivity.
  - intros k. destruct (decide (k = "my.txt")) as [->|Hne].
    + rewrite lookup_insert_eq. discriminate.
    + rewrite lookup_insert_ne by done. rewrite lookup_empty. discriminate.
  - reflexivity.
  - reflexivity.
Defined.

End FakePathsFacts.
